(** * Ambulance waiting list web API: the waiting-list operations

    A shallow embedding of [internal/ambulance_wl/impl_ambulance_waiting_list.go]:
    the five mutations that the handlers pass to [updateAmbulanceFunc]
    (create, delete, get-all, get-one, update), the Go slice primitives
    they use, and the properties of the waiting list they maintain.

    Conventions of the embedding:
    - a Go [string] is a [string]; [int] and [int32] values are [Z];
    - a [time.Time] is the signed distance in nanoseconds of its instant
      from the zero value [time.Time{}], so [t.After(time.Time{})] is [0 < t];
    - a Go slice is either the nil slice or a (possibly empty) sequence;
    - a run-time panic (index or slice bound out of range) is an explicit
      outcome of the [exec] monad;
    - tracing and logging have no effect on the results and are left out. *)

From Stdlib Require Import ZArith.
From stdpp Require Import base option list sorting strings gmap.

Local Open Scope string_scope.
Local Open Scope list_scope.
Local Open Scope Z_scope.

(** ** Execution outcomes *)

Inductive exec (A : Type) : Type :=
  | Value (a : A)
  | Panic.
Arguments Value {A} a.
Arguments Panic {A}.

Definition exec_bind {A B : Type} (m : exec A) (k : A -> exec B) : exec B :=
  match m with
  | Value a => k a
  | Panic => Panic
  end.

Notation "'let*' x ':=' m 'in' k" := (exec_bind m (fun x => k))
  (at level 10, x name, m at level 100, k at level 200).

(** ** Data model *)

(** Modelled from the spec: the struct [WaitingListEntry] is declared in a
    file of the repository that is not among the sources; the fields are
    those of section 3 of the specification, which are also the only ones
    the handlers read or write. *)
Record WaitingListEntry : Type := mkEntry {
  Id : string;
  PatientId : string;
  WaitingSince : Z;
  EstimatedDurationMinutes : Z
}.

Global Instance WaitingListEntry_eq_dec : EqDecision WaitingListEntry.
Proof. solve_decision. Defined.

Definition set_Id (v : string) (e : WaitingListEntry) : WaitingListEntry :=
  mkEntry v (PatientId e) (WaitingSince e) (EstimatedDurationMinutes e).
Definition set_PatientId (v : string) (e : WaitingListEntry) : WaitingListEntry :=
  mkEntry (Id e) v (WaitingSince e) (EstimatedDurationMinutes e).
Definition set_WaitingSince (v : Z) (e : WaitingListEntry) : WaitingListEntry :=
  mkEntry (Id e) (PatientId e) v (EstimatedDurationMinutes e).
Definition set_EstimatedDurationMinutes (v : Z) (e : WaitingListEntry)
  : WaitingListEntry :=
  mkEntry (Id e) (PatientId e) (WaitingSince e) v.

(** A Go slice of entries: [NilSlice] is the nil slice, [Slice l] a non-nil
    slice with the elements [l]. *)
Inductive slice : Type :=
  | NilSlice
  | Slice (l : list WaitingListEntry).

Definition elems (s : slice) : list WaitingListEntry :=
  match s with
  | NilSlice => []
  | Slice l => l
  end.

Definition len (s : slice) : Z := Z.of_nat (length (elems s)).

(** Modelled from the spec: the struct [Ambulance] is declared in a file of
    the repository that is not among the sources; the fields are those of
    section 3 of the specification ([ambulance.Id], [ambulance.Name] and
    [ambulance.WaitingList] in the handlers). *)
Record Ambulance : Type := mkAmbulance {
  AmbulanceId : string;
  Name : string;
  WaitingList : slice
}.

Definition set_WaitingList (s : slice) (a : Ambulance) : Ambulance :=
  mkAmbulance (AmbulanceId a) (Name a) s.

(** ** Go slice primitives *)

(** [slices.IndexFunc]: the index of the first element satisfying [f],
    or [-1]. *)
Fixpoint index_from (f : WaitingListEntry -> bool) (l : list WaitingListEntry)
    (i : Z) : Z :=
  match l with
  | [] => -1
  | x :: l' => if f x then i else index_from f l' (i + 1)
  end.

Definition IndexFunc (s : slice) (f : WaitingListEntry -> bool) : Z :=
  index_from f (elems s) 0.

(** [s[i]] as a value. *)
Definition index (s : slice) (i : Z) : exec WaitingListEntry :=
  if (0 <=? i) && (i <? len s) then
    match elems s !! Z.to_nat i with
    | Some e => Value e
    | None => Panic
    end
  else Panic.

(** [s[i].F = v]: the element at [i] is updated in place. *)
Definition assign (s : slice) (i : Z) (upd : WaitingListEntry -> WaitingListEntry)
  : exec slice :=
  let* e := index s i in
  Value (Slice (<[Z.to_nat i := upd e]> (elems s))).

(** [s[lo:hi]], with the capacity of [s] taken to be its length. *)
Definition subslice (s : slice) (lo hi : Z) : exec slice :=
  if (0 <=? lo) && (lo <=? hi) && (hi <=? len s) then
    match s with
    | NilSlice => Value NilSlice
    | Slice l => Value (Slice (take (Z.to_nat (hi - lo)) (drop (Z.to_nat lo) l)))
    end
  else Panic.

(** [append(s, xs...)]: appending nothing gives [s] back. *)
Definition append (s : slice) (xs : list WaitingListEntry) : slice :=
  match xs with
  | [] => s
  | _ => Slice (elems s ++ xs)
  end.

(** ** HTTP vocabulary *)

Definition StatusOK : Z := 200.
Definition StatusNoContent : Z := 204.
Definition StatusBadRequest : Z := 400.
Definition StatusNotFound : Z := 404.
Definition StatusConflict : Z := 409.
Definition StatusInternalServerError : Z := 500.

(** The response payload, an [interface{}] in the source: [nil], a
    [gin.H] error object, one entry, or a slice of entries. *)
Inductive payload : Type :=
  | NoPayload
  | H (status : Z) (message : string) (error : option string)
  | EntryPayload (e : WaitingListEntry)
  | ListPayload (s : slice).

(** What a handler reads from the [gin.Context]: the outcome of
    [c.ShouldBindJSON(&entry)] (an error text or the bound entry) and
    [c.Param("entryId")] (the empty string when absent). *)
Record Context : Type := mkContext {
  ShouldBindJSON : string + WaitingListEntry;
  ParamEntryId : string
}.

Definition mutation_result : Type := (option Ambulance * payload * Z)%type.

(** ** The reconciler of the specification *)

(** Three-way comparison of entries: by [WaitingSince], ties by [Id]
    (byte-wise, as Go compares strings). *)
Definition compareEntries (l r : WaitingListEntry) : comparison :=
  match WaitingSince l ?= WaitingSince r with
  | Eq => String.compare (Id l) (Id r)
  | Lt => Lt
  | Gt => Gt
  end.

Definition entry_leb (l r : WaitingListEntry) : bool :=
  match compareEntries l r with
  | Gt => false
  | _ => true
  end.

Definition entry_le (l r : WaitingListEntry) : Prop := entry_leb l r = true.

Fixpoint insert_sorted (x : WaitingListEntry) (l : list WaitingListEntry)
  : list WaitingListEntry :=
  match l with
  | [] => [x]
  | y :: l' => if entry_leb x y then x :: y :: l' else y :: insert_sorted x l'
  end.

Fixpoint sort_entries (l : list WaitingListEntry) : list WaitingListEntry :=
  match l with
  | [] => []
  | x :: l' => insert_sorted x (sort_entries l')
  end.

(** Modelled from the spec: the method [reconcileWaitingList] of the ambulance
    is defined in a file of the repository that is not among the sources.
    Section 4.2 of the specification: it orders the full entry list in
    place by [waitingSince] ascending, ties broken by entry [id], is
    idempotent and fails for no list, the empty one included.  The entries
    themselves carry no derived field in the data model of section 3, so
    the reconciler is the (stable) sort of the list. *)
Definition reconcileWaitingList (a : Ambulance) : Ambulance :=
  match WaitingList a with
  | NilSlice => a
  | Slice l => set_WaitingList (Slice (sort_entries l)) a
  end.

(** ** The five mutations *)

(** Each handler passes a closure to [updateAmbulanceFunc]; it receives the
    context and the ambulance and returns an ambulance pointer, a payload
    and a status.  The closures are embedded here over an arbitrary
    reconciler, the method they call on the ambulance; [None] as first
    component is the nil pointer. *)
Section Mutations.

Variable reconcile : Ambulance -> Ambulance.

(** [NewString] is the value [uuid.NewString()] returns if it is called. *)
Definition CreateWaitingListEntry (NewString : string) (c : Context)
    (ambulance : Ambulance) : exec mutation_result :=
  match ShouldBindJSON c with
  | inl err =>
      Value (None, H StatusBadRequest "Invalid request body" (Some err),
             StatusBadRequest)
  | inr entry =>
      if (PatientId entry =? "")%string then
        Value (None, H StatusBadRequest "Patient ID is required" None,
               StatusBadRequest)
      else
        let entry :=
          if (Id entry =? "")%string || (Id entry =? "@new")%string
          then set_Id NewString entry else entry in
        let conflictIndx :=
          IndexFunc (WaitingList ambulance) (fun waiting =>
            (Id entry =? Id waiting)%string
            || (PatientId entry =? PatientId waiting)%string) in
        if 0 <=? conflictIndx then
          Value (None, H StatusConflict "Entry already exists" None,
                 StatusConflict)
        else
          let ambulance :=
            set_WaitingList (append (WaitingList ambulance) [entry]) ambulance in
          let ambulance := reconcile ambulance in
          let entryIndx :=
            IndexFunc (WaitingList ambulance) (fun waiting =>
              (Id entry =? Id waiting)%string) in
          if entryIndx <? 0 then
            Value (None, H StatusInternalServerError "Failed to save entry" None,
                   StatusInternalServerError)
          else
            let* _logged := index (WaitingList ambulance) entryIndx in
            let* stored := index (WaitingList ambulance) entryIndx in
            Value (Some ambulance, EntryPayload stored, StatusOK)
  end.

Definition DeleteWaitingListEntry (c : Context) (ambulance : Ambulance)
  : exec mutation_result :=
  let entryId := ParamEntryId c in
  if (entryId =? "")%string then
    Value (None, H StatusBadRequest "Entry ID is required" None,
           StatusBadRequest)
  else
    let entryIndx :=
      IndexFunc (WaitingList ambulance) (fun waiting =>
        (entryId =? Id waiting)%string) in
    if entryIndx <? 0 then
      Value (None, H StatusNotFound "Entry not found" None, StatusNotFound)
    else
      let* front := subslice (WaitingList ambulance) 0 entryIndx in
      let* back :=
        subslice (WaitingList ambulance) (entryIndx + 1)
                 (len (WaitingList ambulance)) in
      let ambulance := set_WaitingList (append front (elems back)) ambulance in
      let ambulance := reconcile ambulance in
      Value (Some ambulance, NoPayload, StatusNoContent).

Definition GetWaitingListEntries (c : Context) (ambulance : Ambulance)
  : exec mutation_result :=
  let result := WaitingList ambulance in
  let result :=
    match result with
    | NilSlice => Slice []
    | Slice _ => result
    end in
  Value (None, ListPayload result, StatusOK).

Definition GetWaitingListEntry (c : Context) (ambulance : Ambulance)
  : exec mutation_result :=
  let entryId := ParamEntryId c in
  if (entryId =? "")%string then
    Value (None, H StatusBadRequest "Entry ID is required" None,
           StatusBadRequest)
  else
    let entryIndx :=
      IndexFunc (WaitingList ambulance) (fun waiting =>
        (entryId =? Id waiting)%string) in
    if entryIndx <? 0 then
      Value (None, H StatusNotFound "Entry not found" None, StatusNotFound)
    else
      let* found := index (WaitingList ambulance) entryIndx in
      Value (None, EntryPayload found, StatusOK).

(** One guarded field assignment of the update:
    [if cond { ambulance.WaitingList[entryIndx].F = v }]. *)
Definition assign_if (cond : bool) (s : slice) (i : Z)
    (upd : WaitingListEntry -> WaitingListEntry) : exec slice :=
  if cond then assign s i upd else Value s.

Definition UpdateWaitingListEntry (c : Context) (ambulance : Ambulance)
  : exec mutation_result :=
  match ShouldBindJSON c with
  | inl err =>
      Value (None, H StatusBadRequest "Invalid request body" (Some err),
             StatusBadRequest)
  | inr entry =>
      let entryId := ParamEntryId c in
      if (entryId =? "")%string then
        Value (None, H StatusBadRequest "Entry ID is required" None,
               StatusBadRequest)
      else
        let entryIndx :=
          IndexFunc (WaitingList ambulance) (fun waiting =>
            (entryId =? Id waiting)%string) in
        if entryIndx <? 0 then
          Value (None, H StatusNotFound "Entry not found" None, StatusNotFound)
        else
          let* wl :=
            assign_if (negb (PatientId entry =? "")%string)
              (WaitingList ambulance) entryIndx
              (set_PatientId (PatientId entry)) in
          let* wl :=
            assign_if (negb (Id entry =? "")%string)
              wl entryIndx (set_Id (Id entry)) in
          let* wl :=
            assign_if (0 <? WaitingSince entry)
              wl entryIndx (set_WaitingSince (WaitingSince entry)) in
          let* wl :=
            assign_if (0 <? EstimatedDurationMinutes entry)
              wl entryIndx
              (set_EstimatedDurationMinutes (EstimatedDurationMinutes entry)) in
          let ambulance := set_WaitingList wl ambulance in
          let ambulance := reconcile ambulance in
          let* merged := index (WaitingList ambulance) entryIndx in
          Value (Some ambulance, EntryPayload merged, StatusOK)
  end.

End Mutations.

(** The operations of the API and the mutation each one runs, with the
    reconciler of the specification. *)
Inductive operation : Type :=
  | Create (NewString : string)
  | Delete
  | GetAll
  | GetOne
  | Update.

Definition mutation (op : operation) (c : Context) (ambulance : Ambulance)
  : exec mutation_result :=
  match op with
  | Create NewString =>
      CreateWaitingListEntry reconcileWaitingList NewString c ambulance
  | Delete => DeleteWaitingListEntry reconcileWaitingList c ambulance
  | GetAll => GetWaitingListEntries c ambulance
  | GetOne => GetWaitingListEntry c ambulance
  | Update => UpdateWaitingListEntry reconcileWaitingList c ambulance
  end.

(** ** The updater of the specification *)

(** The document store as the updater sees it: the documents by ambulance
    id and the number of replace calls issued so far. *)
Record Store : Type := mkStore {
  documents : gmap string Ambulance;
  replaceCalls : nat
}.

(** What reaches the HTTP layer: the updater's own failures, or the
    payload and status of the mutation. *)
Inductive response : Type :=
  | AmbulanceNotFound
  | PersistFailed
  | Forwarded (p : payload) (status : Z).

(** Modelled from the spec: [updateAmbulanceFunc] is defined in a file of
    the repository that is not among the sources.  Section 4.1 of the
    specification: the ambulance is fetched by id, and the operation fails
    with "not found" before the mutation runs if it is absent; a nil new
    state issues no write; a non-nil new state is persisted as one
    full-document replace (which fails if the document is gone); the
    mutation's payload and status are forwarded verbatim. *)
Definition updateAmbulanceFunc (ambulanceId : string)
    (mutate : Ambulance -> exec mutation_result) (st : Store)
  : exec (Store * response) :=
  match documents st !! ambulanceId with
  | None => Value (st, AmbulanceNotFound)
  | Some ambulance =>
      let* r := mutate ambulance in
      match r with
      | (None, p, status) => Value (st, Forwarded p status)
      | (Some updated, p, status) =>
          match documents st !! AmbulanceId updated with
          | None =>
              Value (mkStore (documents st) (S (replaceCalls st)), PersistFailed)
          | Some _ =>
              Value (mkStore (<[AmbulanceId updated := updated]> (documents st))
                             (S (replaceCalls st)),
                     Forwarded p status)
          end
      end
  end.

(** ** Predicates on ambulance states *)

Definition ids (a : Ambulance) : list string := Id <$> elems (WaitingList a).
Definition patientIds (a : Ambulance) : list string :=
  PatientId <$> elems (WaitingList a).

(** Ids and patient ids are each pairwise distinct within the ambulance. *)
Definition unique_entries (a : Ambulance) : Prop :=
  NoDup (ids a) /\ NoDup (patientIds a).

Definition success (status : Z) : Prop := 200 <= status < 300.

(** The list is in the reconciler's order. *)
Definition reconciled (l : list WaitingListEntry) : Prop :=
  StronglySorted entry_le l.

(** ** Derived notions of the operations *)

(** The target entry after the four guarded assignments of the update. *)
Definition merge (entry target : WaitingListEntry) : WaitingListEntry :=
  let target :=
    if negb (PatientId entry =? "")%string
    then set_PatientId (PatientId entry) target else target in
  let target :=
    if negb (Id entry =? "")%string
    then set_Id (Id entry) target else target in
  let target :=
    if 0 <? WaitingSince entry
    then set_WaitingSince (WaitingSince entry) target else target in
  if 0 <? EstimatedDurationMinutes entry
  then set_EstimatedDurationMinutes (EstimatedDurationMinutes entry) target
  else target.

(** The id the created entry carries: generated when the supplied one is
    empty or the placeholder. *)
Definition createdId (NewString : string) (entry : WaitingListEntry) : string :=
  if (Id entry =? "")%string || (Id entry =? "@new")%string
  then NewString else Id entry.

Definition createdEntry (NewString : string) (entry : WaitingListEntry)
  : WaitingListEntry :=
  set_Id (createdId NewString entry) entry.

Definition conflicts (created waiting : WaitingListEntry) : bool :=
  (Id created =? Id waiting)%string
  || (PatientId created =? PatientId waiting)%string.

(** The update changes no id and no patient id into one that another entry
    of the list carries. *)
Definition update_collision_free (c : Context) (a : Ambulance) : Prop :=
  forall entry w,
    ShouldBindJSON c = inr entry ->
    w ∈ elems (WaitingList a) ->
    Id w <> ParamEntryId c ->
    (Id entry <> "" -> Id entry <> Id w) /\
    (PatientId entry <> "" -> PatientId entry <> PatientId w).

(** A reconciler that loses the list: it shows that the branch exists. *)
Definition forgetful_reconcile (a : Ambulance) : Ambulance :=
  set_WaitingList NilSlice a.

(** ** The operations over an arbitrary reconciler *)

(** The mutation each operation runs, with the reconciler left open: the
    handlers only call it, and most of what they do does not depend on
    what it computes. *)
Definition mutation_with (reconcile : Ambulance -> Ambulance) (op : operation)
    (c : Context) (ambulance : Ambulance) : exec mutation_result :=
  match op with
  | Create NewString => CreateWaitingListEntry reconcile NewString c ambulance
  | Delete => DeleteWaitingListEntry reconcile c ambulance
  | GetAll => GetWaitingListEntries c ambulance
  | GetOne => GetWaitingListEntry c ambulance
  | Update => UpdateWaitingListEntry reconcile c ambulance
  end.

(** The operations that return the ambulance for persisting. *)
Definition mutating (op : operation) : bool :=
  match op with
  | Create _ | Delete | Update => true
  | GetAll | GetOne => false
  end.

(** A reconciler that only reorders the entries. *)
Definition preserves_entries (reconcile : Ambulance -> Ambulance) : Prop :=
  forall a, elems (WaitingList (reconcile a)) ≡ₚ elems (WaitingList a).

(** A reconciler that keeps the number of entries. *)
Definition preserves_length (reconcile : Ambulance -> Ambulance) : Prop :=
  forall a, len (WaitingList (reconcile a)) = len (WaitingList a).

(** A reconciler that changes nothing when run a second time. *)
Definition idempotent (reconcile : Ambulance -> Ambulance) : Prop :=
  forall a, reconcile (reconcile a) = reconcile a.

(** Every entry has an id and a patient id. *)
Definition identified (a : Ambulance) : Prop :=
  Forall (fun e => Id e <> "" /\ PatientId e <> "") (elems (WaitingList a)).

(** The request body populates none of the four fields an update merges. *)
Definition unpopulated (entry : WaitingListEntry) : Prop :=
  PatientId entry = "" /\ Id entry = "" /\
  WaitingSince entry <= 0 /\ EstimatedDurationMinutes entry <= 0.

(** Case analysis on every branch of a run of a mutation. *)
Ltac run_cases H :=
  unfold CreateWaitingListEntry, DeleteWaitingListEntry, GetWaitingListEntries,
    GetWaitingListEntry, UpdateWaitingListEntry, exec_bind in H;
  repeat case_match; simplify_eq.

(** * Properties *)

(** ** The execution monad *)

Lemma exec_bind_Value {A B : Type} (m : exec A) (k : A -> exec B) (b : B) :
  exec_bind m k = Value b -> exists a, m = Value a /\ k a = Value b.
Proof. destruct m as [a|]; simpl; [eauto | discriminate]. Qed.

(** ** [slices.IndexFunc] *)

Lemma index_from_found f l i :
  0 <= i -> 0 <= index_from f l i ->
  exists (k : nat) e,
    index_from f l i = i + Z.of_nat k /\ l !! k = Some e /\ f e = true /\
    forall (j : nat) e', (j < k)%nat -> l !! j = Some e' -> f e' = false.
Proof.
  revert i. induction l as [|x l IH]; simpl; intros i Hi Hfound; [lia|].
  destruct (f x) eqn:Hfx.
  - exists 0%nat, x. repeat split; [lia | done | lia].
  - destruct (IH (i + 1)) as (k & e & Heq & Hk & Hfe & Hbefore); [lia | done |].
    exists (S k), e. repeat split; [lia | done | done |].
    intros [|j] e' Hj Hlook; simpl in Hlook.
    + by simplify_eq.
    + apply (Hbefore j); [lia | done].
Qed.

Lemma index_from_absent f l i :
  0 <= i -> (index_from f l i < 0 <-> Forall (fun e => f e = false) l).
Proof.
  revert i. induction l as [|x l IH]; simpl; intros i Hi.
  - split; [constructor | lia].
  - destruct (f x) eqn:Hfx.
    + split; [lia | intros [? _]%Forall_cons; congruence].
    + rewrite IH by lia. rewrite Forall_cons. tauto.
Qed.

Lemma IndexFunc_found s f :
  0 <= IndexFunc s f ->
  exists (k : nat) e,
    IndexFunc s f = Z.of_nat k /\ elems s !! k = Some e /\ f e = true /\
    forall (j : nat) e', (j < k)%nat -> elems s !! j = Some e' -> f e' = false.
Proof.
  intros Hfound. destruct (index_from_found f (elems s) 0) as (k & e & ? & ?);
    [lia | done |].
  exists k, e. unfold IndexFunc. split; [lia | done].
Qed.

Lemma IndexFunc_absent s f :
  IndexFunc s f < 0 <-> Forall (fun e => f e = false) (elems s).
Proof. apply index_from_absent. lia. Qed.

Lemma IndexFunc_present s f e :
  e ∈ elems s -> f e = true -> 0 <= IndexFunc s f.
Proof.
  intros Hin Hfe. destruct (Z.lt_ge_cases (IndexFunc s f) 0) as [Hneg|]; [|lia].
  apply IndexFunc_absent in Hneg. rewrite Forall_forall in Hneg.
  specialize (Hneg e Hin). congruence.
Qed.

(** ** Indexing *)

Lemma index_lookup s (k : nat) e :
  elems s !! k = Some e -> index s (Z.of_nat k) = Value e.
Proof.
  intros Hk. unfold index, len. pose proof (lookup_lt_Some _ _ _ Hk).
  rewrite Nat2Z.id, Hk.
  destruct (0 <=? Z.of_nat k) eqn:E1; [|lia].
  destruct (Z.of_nat k <? Z.of_nat (length (elems s))) eqn:E2; [done | lia].
Qed.

Lemma index_Value s i e :
  index s i = Value e ->
  exists k : nat, i = Z.of_nat k /\ elems s !! k = Some e.
Proof.
  unfold index. destruct (0 <=? i) eqn:E1; simpl; [|discriminate].
  destruct (i <? len s); [|discriminate].
  destruct (elems s !! Z.to_nat i) eqn:Hk; [|discriminate].
  intros [= ->]. exists (Z.to_nat i). split; [lia | done].
Qed.

Lemma index_in_range s i :
  0 <= i < len s -> exists e, index s i = Value e.
Proof.
  intros Hi. unfold len in Hi.
  destruct (lookup_lt_is_Some_2 (elems s) (Z.to_nat i)) as [e He]; [lia|].
  exists e. rewrite <- (Z2Nat.id i) by lia. by apply index_lookup.
Qed.

Lemma assign_lookup s (k : nat) e upd :
  elems s !! k = Some e ->
  assign s (Z.of_nat k) upd = Value (Slice (<[k := upd e]> (elems s))).
Proof.
  intros Hk. unfold assign. rewrite (index_lookup _ _ _ Hk). simpl.
  by rewrite Nat2Z.id.
Qed.

(** ** The order of the reconciler *)

Lemma entry_leb_spec l r :
  entry_leb l r = true <->
  WaitingSince l < WaitingSince r \/
  (WaitingSince l = WaitingSince r /\ String.le (Id l) (Id r)).
Proof.
  unfold entry_leb, compareEntries, String.le, String.leb.
  destruct (WaitingSince l ?= WaitingSince r) eqn:Hc.
  - apply Z.compare_eq in Hc.
    destruct (String.compare (Id l) (Id r)); simpl; intuition (try done; lia).
  - apply Z.compare_lt_iff in Hc. intuition.
  - apply Z.compare_gt_iff in Hc. intuition (try done; lia).
Qed.

Global Instance entry_le_trans : Transitive entry_le.
Proof.
  intros x y z. unfold entry_le. rewrite !entry_leb_spec.
  intros [?|[? Hxy]] [?|[? Hyz]]; [left; lia..|].
  right. split; [lia | by etrans].
Qed.

Lemma entry_leb_total x y : entry_leb x y = false -> entry_le y x.
Proof.
  intros Hxy. unfold entry_le. apply entry_leb_spec.
  destruct (Z.lt_trichotomy (WaitingSince x) (WaitingSince y)) as [?|[?|?]].
  - assert (entry_leb x y = true) by (apply entry_leb_spec; lia). congruence.
  - right. split; [lia|].
    destruct (total String.le (Id x) (Id y)); [|done].
    assert (entry_leb x y = true) by (apply entry_leb_spec; tauto). congruence.
  - lia.
Qed.

Lemma entry_le_WaitingSince x y : entry_le x y -> WaitingSince x <= WaitingSince y.
Proof. unfold entry_le. rewrite entry_leb_spec. lia. Qed.

(** ** The sort *)

Lemma insert_sorted_Permutation x l : insert_sorted x l ≡ₚ x :: l.
Proof.
  induction l as [|y l IH]; simpl; [done|].
  destruct (entry_leb x y); [done|]. rewrite IH. apply perm_swap.
Qed.

Lemma sort_entries_Permutation l : sort_entries l ≡ₚ l.
Proof.
  induction l as [|x l IH]; simpl; [done|].
  by rewrite insert_sorted_Permutation, IH.
Qed.

Lemma insert_sorted_reconciled x l :
  reconciled l -> reconciled (insert_sorted x l).
Proof.
  unfold reconciled. induction l as [|y l IH]; simpl; intros Hl.
  - repeat constructor.
  - apply StronglySorted_cons in Hl as [Hy Hl].
    destruct (entry_leb x y) eqn:Hxy.
    + apply StronglySorted_cons. split; [|by apply StronglySorted_cons].
      constructor; [done|].
      eapply Forall_impl; [exact Hy|]. intros z Hyz. by trans y.
    + apply StronglySorted_cons. split; [|by apply IH].
      rewrite insert_sorted_Permutation. constructor; [|done].
      by apply entry_leb_total.
Qed.

Lemma sort_entries_reconciled l : reconciled (sort_entries l).
Proof.
  induction l as [|x l IH]; simpl; [constructor|].
  by apply insert_sorted_reconciled.
Qed.

Lemma sort_entries_fixed l : reconciled l -> sort_entries l = l.
Proof.
  unfold reconciled. induction l as [|x l IH]; simpl; intros Hl; [done|].
  apply StronglySorted_cons in Hl as [Hx Hl]. rewrite IH by done.
  destruct l as [|y l]; simpl; [done|].
  apply Forall_cons in Hx as [Hxy _]. unfold entry_le in Hxy. by rewrite Hxy.
Qed.

Lemma sort_entries_length l : length (sort_entries l) = length l.
Proof. by rewrite sort_entries_Permutation. Qed.

Lemma reconcileWaitingList_Permutation a :
  elems (WaitingList (reconcileWaitingList a)) ≡ₚ elems (WaitingList a).
Proof.
  unfold reconcileWaitingList. destruct (WaitingList a) eqn:E; simpl.
  - by rewrite E.
  - apply sort_entries_Permutation.
Qed.

Lemma reconcileWaitingList_reconciled a :
  reconciled (elems (WaitingList (reconcileWaitingList a))).
Proof.
  unfold reconcileWaitingList. destruct (WaitingList a) eqn:E; simpl.
  - rewrite E. constructor.
  - apply sort_entries_reconciled.
Qed.

Lemma reconcileWaitingList_len a :
  len (WaitingList (reconcileWaitingList a)) = len (WaitingList a).
Proof. unfold len. by rewrite reconcileWaitingList_Permutation. Qed.

(** ** Slices that hold an element *)

Lemma lookup_Slice s (k : nat) e : elems s !! k = Some e -> s = Slice (elems s).
Proof. destruct s; simpl; [by rewrite lookup_nil | done]. Qed.

Lemma elems_append s xs : elems (append s xs) = elems s ++ xs.
Proof. destruct xs; simpl; [by rewrite app_nil_r | done]. Qed.

Lemma append_Slice l xs : append (Slice l) xs = Slice (l ++ xs).
Proof. destruct xs; simpl; [by rewrite app_nil_r | done]. Qed.

Lemma subslice_Slice l lo hi :
  0 <= lo -> lo <= hi -> hi <= Z.of_nat (length l) ->
  subslice (Slice l) lo hi
  = Value (Slice (take (Z.to_nat (hi - lo)) (drop (Z.to_nat lo) l))).
Proof.
  intros Hlo Hhi Hlen. unfold subslice, len; simpl.
  destruct (0 <=? lo) eqn:E1; [|lia].
  destruct (lo <=? hi) eqn:E2; [|lia].
  destruct (hi <=? Z.of_nat (length l)) eqn:E3; [done | lia].
Qed.

Lemma assign_if_lookup cond l (k : nat) e upd :
  l !! k = Some e ->
  assign_if cond (Slice l) (Z.of_nat k) upd
  = Value (Slice (<[k := if cond then upd e else e]> l)).
Proof.
  intros Hk. unfold assign_if. destruct cond.
  - by rewrite (assign_lookup (Slice l) k e).
  - by rewrite list_insert_id.
Qed.

(** ** The merge of an update *)

Lemma merge_Id entry target :
  Id (merge entry target) = if (Id entry =? "")%string then Id target else Id entry.
Proof. unfold merge. by repeat case_match. Qed.

Lemma merge_PatientId entry target :
  PatientId (merge entry target)
  = if (PatientId entry =? "")%string then PatientId target else PatientId entry.
Proof. unfold merge. by repeat case_match. Qed.


Lemma merge_EstimatedDurationMinutes entry target :
  EstimatedDurationMinutes (merge entry target)
  = if 0 <? EstimatedDurationMinutes entry
    then EstimatedDurationMinutes entry else EstimatedDurationMinutes target.
Proof. unfold merge. by repeat case_match. Qed.

(** ** The paths through the mutations *)

Section Paths.

Variable reconcile : Ambulance -> Ambulance.

Lemma Create_entry NewString entry :
  (if (Id entry =? "")%string || (Id entry =? "@new")%string
   then set_Id NewString entry else entry) = createdEntry NewString entry.
Proof.
  unfold createdEntry, createdId.
  destruct ((Id entry =? "")%string || (Id entry =? "@new")%string); [done|].
  by destruct entry.
Qed.

Lemma Create_conflict NewString c a entry w :
  ShouldBindJSON c = inr entry ->
  PatientId entry <> "" ->
  w ∈ elems (WaitingList a) ->
  conflicts (createdEntry NewString entry) w = true ->
  CreateWaitingListEntry reconcile NewString c a
  = Value (None, H StatusConflict "Entry already exists" None, StatusConflict).
Proof.
  intros Hbind Hpid Hw Hconf. unfold CreateWaitingListEntry.
  rewrite Hbind. apply String.eqb_neq in Hpid. rewrite Hpid.
  rewrite Create_entry. cbv zeta.
  pose proof (IndexFunc_present (WaitingList a)
                (conflicts (createdEntry NewString entry)) w Hw Hconf) as Hi.
  unfold conflicts in Hi.
  destruct (0 <=? IndexFunc _ _) eqn:E; [done | lia].
Qed.

Lemma Create_no_conflict NewString c a entry :
  ShouldBindJSON c = inr entry ->
  PatientId entry <> "" ->
  Forall (fun w => conflicts (createdEntry NewString entry) w = false)
         (elems (WaitingList a)) ->
  CreateWaitingListEntry reconcile NewString c a
  = let created := createdEntry NewString entry in
    let a' :=
      reconcile (set_WaitingList (Slice (elems (WaitingList a) ++ [created])) a) in
    let entryIndx :=
      IndexFunc (WaitingList a') (fun waiting =>
        (Id created =? Id waiting)%string) in
    if entryIndx <? 0 then
      Value (None, H StatusInternalServerError "Failed to save entry" None,
             StatusInternalServerError)
    else
      let* stored := index (WaitingList a') entryIndx in
      Value (Some a', EntryPayload stored, StatusOK).
Proof.
  intros Hbind Hpid Hfree. unfold CreateWaitingListEntry.
  rewrite Hbind. apply String.eqb_neq in Hpid. rewrite Hpid.
  rewrite Create_entry. cbv zeta.
  apply IndexFunc_absent in Hfree. unfold conflicts in Hfree.
  destruct (0 <=? IndexFunc _ _) eqn:E; [lia|]. simpl append.
  destruct (_ <? 0); [done|].
  by destruct (index _ _).
Qed.

Lemma Delete_found c a (k : nat) :
  ParamEntryId c <> "" ->
  IndexFunc (WaitingList a) (fun waiting =>
    (ParamEntryId c =? Id waiting)%string) = Z.of_nat k ->
  DeleteWaitingListEntry reconcile c a
  = Value (Some (reconcile
                   (set_WaitingList (Slice (delete k (elems (WaitingList a)))) a)),
           NoPayload, StatusNoContent).
Proof.
  intros Hid Hk. unfold DeleteWaitingListEntry.
  apply String.eqb_neq in Hid. rewrite Hid. cbv zeta.
  destruct (IndexFunc_found (WaitingList a)
              (fun waiting => (ParamEntryId c =? Id waiting)%string))
    as (k' & e & Hk' & He & _); [lia|].
  assert (k' = k) as -> by lia.
  rewrite Hk. pose proof (lookup_lt_Some _ _ _ He) as Hlt.
  destruct (Z.of_nat k <? 0) eqn:E; [lia|].
  rewrite (lookup_Slice _ _ _ He). simpl elems. unfold len; simpl elems.
  rewrite !subslice_Slice by lia. simpl exec_bind.
  rewrite append_Slice. simpl elems. rewrite drop_0.
  replace (Z.to_nat (Z.of_nat k - 0)) with k by lia.
  replace (Z.to_nat (Z.of_nat k + 1)) with (S k) by lia.
  rewrite (take_ge (drop (S k) _)) by (rewrite length_drop; lia).
  by rewrite delete_take_drop.
Qed.

Lemma Delete_not_found c a :
  ParamEntryId c <> "" ->
  Forall (fun w => Id w <> ParamEntryId c) (elems (WaitingList a)) ->
  DeleteWaitingListEntry reconcile c a
  = Value (None, H StatusNotFound "Entry not found" None, StatusNotFound).
Proof.
  intros Hid Habsent. unfold DeleteWaitingListEntry.
  apply String.eqb_neq in Hid. rewrite Hid. cbv zeta.
  assert (IndexFunc (WaitingList a)
            (fun waiting => (ParamEntryId c =? Id waiting)%string) < 0) as Hi.
  { apply IndexFunc_absent. eapply Forall_impl; [exact Habsent|].
    intros w Hw. apply String.eqb_neq. congruence. }
  destruct (_ <? 0) eqn:E; [done | lia].
Qed.

Lemma Update_found c a entry (k : nat) target :
  ShouldBindJSON c = inr entry ->
  ParamEntryId c <> "" ->
  IndexFunc (WaitingList a) (fun waiting =>
    (ParamEntryId c =? Id waiting)%string) = Z.of_nat k ->
  elems (WaitingList a) !! k = Some target ->
  UpdateWaitingListEntry reconcile c a
  = let a' :=
      reconcile (set_WaitingList
                   (Slice (<[k := merge entry target]> (elems (WaitingList a)))) a) in
    let* merged := index (WaitingList a') (Z.of_nat k) in
    Value (Some a', EntryPayload merged, StatusOK).
Proof.
  intros Hbind Hid Hk Htarget. unfold UpdateWaitingListEntry.
  rewrite Hbind. apply String.eqb_neq in Hid. rewrite Hid. cbv zeta.
  rewrite Hk. destruct (Z.of_nat k <? 0) eqn:E; [lia|].
  pose proof (lookup_lt_Some _ _ _ Htarget) as Hlt.
  rewrite (lookup_Slice _ _ _ Htarget). simpl elems.
  rewrite (assign_if_lookup _ _ _ _ _ Htarget). simpl exec_bind.
  erewrite assign_if_lookup by (by apply list_lookup_insert_eq).
  simpl exec_bind. rewrite list_insert_insert_eq.
  erewrite assign_if_lookup by (by apply list_lookup_insert_eq).
  simpl exec_bind. rewrite list_insert_insert_eq.
  erewrite assign_if_lookup by (by apply list_lookup_insert_eq).
  simpl exec_bind. rewrite list_insert_insert_eq.
  done.
Qed.

End Paths.

Lemma IndexFunc_cases s f :
  (IndexFunc s f < 0 /\ Forall (fun e => f e = false) (elems s)) \/
  (exists (k : nat) e,
     IndexFunc s f = Z.of_nat k /\ elems s !! k = Some e /\ f e = true /\
     forall (j : nat) e', (j < k)%nat -> elems s !! j = Some e' -> f e' = false).
Proof.
  destruct (Z.lt_ge_cases (IndexFunc s f) 0) as [Hneg|Hpos].
  - left. split; [done | by apply IndexFunc_absent].
  - right. apply IndexFunc_found. lia.
Qed.

(** ** What a returned new state tells about the run *)

Section Inversion.

Variable reconcile : Ambulance -> Ambulance.

Lemma Create_new_state NewString c a a' p status :
  CreateWaitingListEntry reconcile NewString c a = Value (Some a', p, status) ->
  exists entry stored,
    ShouldBindJSON c = inr entry /\ PatientId entry <> "" /\
    Forall (fun w => conflicts (createdEntry NewString entry) w = false)
           (elems (WaitingList a)) /\
    a' = reconcile
           (set_WaitingList
              (Slice (elems (WaitingList a) ++ [createdEntry NewString entry])) a) /\
    0 <= IndexFunc (WaitingList a') (fun waiting =>
           (Id (createdEntry NewString entry) =? Id waiting)%string) /\
    index (WaitingList a')
          (IndexFunc (WaitingList a') (fun waiting =>
             (Id (createdEntry NewString entry) =? Id waiting)%string))
    = Value stored /\
    p = EntryPayload stored /\ status = StatusOK.
Proof.
  intros Hrun. destruct (ShouldBindJSON c) as [err|entry] eqn:Hbind.
  { unfold CreateWaitingListEntry in Hrun. by rewrite Hbind in Hrun. }
  destruct (decide (PatientId entry = "")) as [Hpid|Hpid].
  { unfold CreateWaitingListEntry in Hrun. rewrite Hbind in Hrun.
    apply String.eqb_eq in Hpid. by rewrite Hpid in Hrun. }
  destruct (IndexFunc_cases (WaitingList a)
              (conflicts (createdEntry NewString entry)))
    as [[_ Hfree]|(k & w & _ & Hw & Hconf & _)].
  - rewrite (Create_no_conflict _ _ _ _ _ Hbind Hpid Hfree) in Hrun.
    cbv zeta in Hrun.
    destruct (_ <? 0) eqn:E in Hrun; [done|].
    apply exec_bind_Value in Hrun as (stored & Hstored & [= <- <- <-]).
    exists entry, stored. repeat split; [done | done | lia | done].
  - apply list_elem_of_lookup_2 in Hw.
    by rewrite (Create_conflict _ _ _ _ _ _ Hbind Hpid Hw Hconf) in Hrun.
Qed.

Lemma by_id_found s entryId :
  0 <= IndexFunc s (fun waiting => (entryId =? Id waiting)%string) ->
  exists (k : nat) target,
    IndexFunc s (fun waiting => (entryId =? Id waiting)%string) = Z.of_nat k /\
    elems s !! k = Some target /\ Id target = entryId /\
    forall (j : nat) w, (j < k)%nat -> elems s !! j = Some w -> Id w <> entryId.
Proof.
  intros Hfound. apply IndexFunc_found in Hfound as (k & e & Hk & He & Hid & Hfirst).
  exists k, e. repeat split; [done | done | |].
  - symmetry. by apply String.eqb_eq.
  - intros j w Hj Hw Heq. specialize (Hfirst j w Hj Hw).
    apply String.eqb_neq in Hfirst. congruence.
Qed.

Lemma Delete_new_state c a a' p status :
  DeleteWaitingListEntry reconcile c a = Value (Some a', p, status) ->
  exists (k : nat) target,
    ParamEntryId c <> "" /\
    elems (WaitingList a) !! k = Some target /\ Id target = ParamEntryId c /\
    a' = reconcile
           (set_WaitingList (Slice (delete k (elems (WaitingList a)))) a) /\
    p = NoPayload /\ status = StatusNoContent.
Proof.
  intros Hrun. destruct (decide (ParamEntryId c = "")) as [Hid|Hid].
  { unfold DeleteWaitingListEntry in Hrun.
    apply String.eqb_eq in Hid. by rewrite Hid in Hrun. }
  destruct (Z.lt_ge_cases
              (IndexFunc (WaitingList a) (fun waiting =>
                 (ParamEntryId c =? Id waiting)%string)) 0) as [Hneg|Hpos].
  - unfold DeleteWaitingListEntry in Hrun.
    apply String.eqb_neq in Hid. rewrite Hid in Hrun. cbv zeta in Hrun.
    destruct (_ <? 0) eqn:E in Hrun; [done | lia].
  - destruct (by_id_found _ _ Hpos) as (k & target & Hk & Htarget & Heq & _).
    rewrite (Delete_found _ _ _ _ Hid Hk) in Hrun.
    injection Hrun as <- <- <-. by exists k, target.
Qed.

Lemma Update_new_state c a a' p status :
  UpdateWaitingListEntry reconcile c a = Value (Some a', p, status) ->
  exists entry (k : nat) target merged,
    ShouldBindJSON c = inr entry /\ ParamEntryId c <> "" /\
    elems (WaitingList a) !! k = Some target /\ Id target = ParamEntryId c /\
    (forall (j : nat) w,
       (j < k)%nat -> elems (WaitingList a) !! j = Some w ->
       Id w <> ParamEntryId c) /\
    a' = reconcile
           (set_WaitingList
              (Slice (<[k := merge entry target]> (elems (WaitingList a)))) a) /\
    index (WaitingList a') (Z.of_nat k) = Value merged /\
    p = EntryPayload merged /\ status = StatusOK.
Proof.
  intros Hrun. destruct (ShouldBindJSON c) as [err|entry] eqn:Hbind.
  { unfold UpdateWaitingListEntry in Hrun. by rewrite Hbind in Hrun. }
  destruct (decide (ParamEntryId c = "")) as [Hid|Hid].
  { unfold UpdateWaitingListEntry in Hrun. rewrite Hbind in Hrun.
    apply String.eqb_eq in Hid. by rewrite Hid in Hrun. }
  destruct (Z.lt_ge_cases
              (IndexFunc (WaitingList a) (fun waiting =>
                 (ParamEntryId c =? Id waiting)%string)) 0) as [Hneg|Hpos].
  - unfold UpdateWaitingListEntry in Hrun. rewrite Hbind in Hrun.
    apply String.eqb_neq in Hid. rewrite Hid in Hrun. cbv zeta in Hrun.
    destruct (_ <? 0) eqn:E in Hrun; [done | lia].
  - destruct (by_id_found _ _ Hpos) as (k & target & Hk & Htarget & Heq & Hfirst).
    rewrite (Update_found _ _ _ _ _ _ Hbind Hid Hk Htarget) in Hrun.
    cbv zeta in Hrun.
    apply exec_bind_Value in Hrun as (merged & Hmerged & [= <- <- <-]).
    by exists entry, k, target, merged.
Qed.

End Inversion.

(** A mutating operation that returns a new state returns a reconciled one. *)
Lemma mutation_new_state op c a a' p status :
  mutation op c a = Value (Some a', p, status) ->
  exists a0, a' = reconcileWaitingList a0.
Proof.
  destruct op; simpl; intros Hrun.
  - apply Create_new_state in Hrun as (? & ? & _ & _ & _ & -> & _). eauto.
  - apply Delete_new_state in Hrun as (? & ? & _ & _ & _ & -> & _). eauto.
  - discriminate.
  - unfold GetWaitingListEntry in Hrun. repeat case_match; simplify_eq.
    by destruct (index _ _).
  - apply Update_new_state in Hrun
      as (? & ? & ? & ? & _ & _ & _ & _ & _ & -> & _). eauto.
Qed.

(** ** Scenarios of section 8 *)

(** An empty ambulance, a create with only a patient id, then a second
    create for the same patient under another id. *)
Example scenario_first_create :
  mutation (Create "generated") (mkContext (inr (mkEntry "" "P1" 0 0)) "")
           (mkAmbulance "amb" "Ambulance" NilSlice)
  = Value (Some (mkAmbulance "amb" "Ambulance"
                   (Slice [mkEntry "generated" "P1" 0 0])),
           EntryPayload (mkEntry "generated" "P1" 0 0), StatusOK).
Proof. reflexivity. Qed.

Example scenario_second_create :
  mutation (Create "unused") (mkContext (inr (mkEntry "other" "P1" 0 0)) "")
           (mkAmbulance "amb" "Ambulance" (Slice [mkEntry "generated" "P1" 0 0]))
  = Value (None, H StatusConflict "Entry already exists" None, StatusConflict).
Proof. reflexivity. Qed.

(** An update whose body carries only an empty patient id changes nothing. *)
Example scenario_update_empty_patientId :
  mutation Update (mkContext (inr (mkEntry "" "" 0 0)) "X")
           (mkAmbulance "amb" "Ambulance" (Slice [mkEntry "X" "P1" 60 10]))
  = Value (Some (mkAmbulance "amb" "Ambulance" (Slice [mkEntry "X" "P1" 60 10])),
           EntryPayload (mkEntry "X" "P1" 60 10), StatusOK).
Proof. reflexivity. Qed.

(** Deleting the last entry leaves a non-nil, empty list. *)
Example scenario_delete_last :
  mutation Delete (mkContext (inl "EOF") "X")
           (mkAmbulance "amb" "Ambulance" (Slice [mkEntry "X" "P1" 60 10]))
  = Value (Some (mkAmbulance "amb" "Ambulance" (Slice [])),
           NoPayload, StatusNoContent).
Proof. reflexivity. Qed.

(** ** The updater and read-only results *)

Lemma updateAmbulanceFunc_nil ambulanceId mutate st a p status :
  documents st !! ambulanceId = Some a ->
  mutate a = Value (None, p, status) ->
  updateAmbulanceFunc ambulanceId mutate st = Value (st, Forwarded p status).
Proof.
  intros Hdoc Hrun. unfold updateAmbulanceFunc. by rewrite Hdoc, Hrun.
Qed.

(** ** The reconciler *)

Lemma reconcileWaitingList_fixed a :
  reconciled (elems (WaitingList a)) -> reconcileWaitingList a = a.
Proof.
  intros Hsorted. unfold reconcileWaitingList.
  destruct a as [i n [|l]]; simpl in *; [done|].
  unfold set_WaitingList; simpl. by rewrite sort_entries_fixed.
Qed.

(** C6: the reconciler is idempotent: reconciling a list that has already
    been reconciled gives exactly that list again, so applying
    [reconcileWaitingList] twice in succession yields what applying it once
    yields. *)
Theorem reconcileWaitingList_idempotent (a : Ambulance) :
  reconcileWaitingList (reconcileWaitingList a) = reconcileWaitingList a.
Proof.
  apply reconcileWaitingList_fixed, reconcileWaitingList_reconciled.
Qed.

(** ** Ordering after a mutation *)

Lemma reconciled_head first rest :
  reconciled (first :: rest) ->
  Forall (fun e => WaitingSince first <= WaitingSince e) rest.
Proof.
  intros [Hfirst _]%StronglySorted_cons.
  eapply Forall_impl; [exact Hfirst|]. apply entry_le_WaitingSince.
Qed.

(** C3: whenever a mutating operation (create, update, delete) returns a
    non-nil new state, the waiting list of that state is sorted by
    [WaitingSince] ascending with ties broken by [Id]; a get-all run on it
    returns that list, whose first entry has the earliest [WaitingSince]. *)
Theorem mutation_leaves_list_reconciled
    (op : operation) (c : Context) (a a' : Ambulance) (p : payload) (status : Z) :
  mutation op c a = Value (Some a', p, status) ->
  reconciled (elems (WaitingList a')) /\
  forall c',
    mutation GetAll c' a'
    = Value (None, ListPayload (Slice (elems (WaitingList a'))), StatusOK) /\
    forall first rest,
      elems (WaitingList a') = first :: rest ->
      Forall (fun e => WaitingSince first <= WaitingSince e) rest.
Proof.
  intros Hrun. apply mutation_new_state in Hrun as [a0 ->].
  pose proof (reconcileWaitingList_reconciled a0) as Hsorted.
  split; [done|]. intros c'. split.
  - simpl. unfold GetWaitingListEntries. by destruct (WaitingList _).
  - intros first rest Heq. rewrite Heq in Hsorted. by apply reconciled_head.
Qed.

Lemma mutation_leaves_list_reconciled_witness :
  let c := mkContext (inr (mkEntry "" "" 600 0)) "e1" in
  let a := mkAmbulance "amb" "Ambulance"
             (Slice [mkEntry "e1" "P1" 60 10; mkEntry "e2" "P2" 300 15]) in
  let a' := mkAmbulance "amb" "Ambulance"
              (Slice [mkEntry "e2" "P2" 300 15; mkEntry "e1" "P1" 600 10]) in
  mutation Update c a
  = Value (Some a', EntryPayload (mkEntry "e2" "P2" 300 15), StatusOK) /\
  reconciled (elems (WaitingList a')).
Proof.
  intros c a a'.
  assert (mutation Update c a
          = Value (Some a', EntryPayload (mkEntry "e2" "P2" 300 15), StatusOK))
    as Hrun by (vm_compute; reflexivity).
  split; [exact Hrun|].
  exact (proj1 (mutation_leaves_list_reconciled Update c a a' _ _ Hrun)).
Defined.

(** ** Get-all *)

(** C7: get-all returns status 200 with the waiting list as payload, a
    non-nil slice (the empty one when there are no entries, also for a nil
    list), and a nil new state; run through the updater it issues no store
    write and leaves the stored documents as they were. *)
Theorem GetWaitingListEntries_read_only (c : Context) (a : Ambulance) :
  mutation GetAll c a
  = Value (None, ListPayload (Slice (elems (WaitingList a))), StatusOK) /\
  forall ambulanceId st,
    documents st !! ambulanceId = Some a ->
    updateAmbulanceFunc ambulanceId (mutation GetAll c) st
    = Value (st, Forwarded (ListPayload (Slice (elems (WaitingList a)))) StatusOK).
Proof.
  assert (mutation GetAll c a
          = Value (None, ListPayload (Slice (elems (WaitingList a))), StatusOK))
    as Hrun.
  { simpl. unfold GetWaitingListEntries. by destruct (WaitingList a). }
  split; [done|]. intros ambulanceId st Hdoc.
  by apply updateAmbulanceFunc_nil with a.
Qed.

Lemma GetWaitingListEntries_read_only_witness :
  let a := mkAmbulance "amb" "Ambulance" NilSlice in
  let st := mkStore {[ "amb" := a ]} 0 in
  documents st !! "amb" = Some a /\
  updateAmbulanceFunc "amb" (mutation GetAll (mkContext (inl "EOF") "")) st
  = Value (st, Forwarded (ListPayload (Slice [])) StatusOK).
Proof.
  intros a st. split; [reflexivity|].
  apply (proj2 (GetWaitingListEntries_read_only (mkContext (inl "EOF") "") a)
           "amb" st).
  reflexivity.
Defined.

(** ** Delete of an unknown entry *)

(** C8: a delete whose non-empty [entryId] matches no entry of the waiting
    list returns status 404 and a nil new state; run through the updater it
    issues no store write and leaves the stored documents as they were. *)
Theorem Delete_unknown_entry (c : Context) (a : Ambulance) :
  ParamEntryId c <> "" ->
  Forall (fun w => Id w <> ParamEntryId c) (elems (WaitingList a)) ->
  mutation Delete c a
  = Value (None, H StatusNotFound "Entry not found" None, StatusNotFound) /\
  forall ambulanceId st,
    documents st !! ambulanceId = Some a ->
    updateAmbulanceFunc ambulanceId (mutation Delete c) st
    = Value (st, Forwarded (H StatusNotFound "Entry not found" None)
                           StatusNotFound).
Proof.
  intros Hid Habsent.
  pose proof (Delete_not_found reconcileWaitingList c a Hid Habsent) as Hrun.
  split; [done|]. intros ambulanceId st Hdoc.
  by apply updateAmbulanceFunc_nil with a.
Qed.

Lemma Delete_unknown_entry_witness :
  let c := mkContext (inl "EOF") "e9" in
  let a := mkAmbulance "amb" "Ambulance" (Slice [mkEntry "e1" "P1" 60 10]) in
  let st := mkStore {[ "amb" := a ]} 3 in
  mutation Delete c a
  = Value (None, H StatusNotFound "Entry not found" None, StatusNotFound) /\
  updateAmbulanceFunc "amb" (mutation Delete c) st
  = Value (st, Forwarded (H StatusNotFound "Entry not found" None)
                         StatusNotFound).
Proof.
  intros c a st.
  assert (ParamEntryId c <> "") as Hid by discriminate.
  assert (Forall (fun w => Id w <> ParamEntryId c) (elems (WaitingList a)))
    as Habsent by (repeat constructor; discriminate).
  destruct (Delete_unknown_entry c a Hid Habsent) as [Hrun Hstore].
  split; [exact Hrun|]. apply Hstore. reflexivity.
Defined.

(** ** Index safety *)

Lemma index_found s f :
  0 <= IndexFunc s f -> exists e, index s (IndexFunc s f) = Value e.
Proof.
  intros (k & e & -> & He & _)%IndexFunc_found.
  exists e. by apply index_lookup.
Qed.

(** C9: every index and slice expression of create, get-one, update and
    delete is evaluated under a non-negative [IndexFunc] result, and none
    goes out of range: for every request and every ambulance state each
    operation returns a result, never a panic. *)
Theorem mutation_never_panics (op : operation) (c : Context) (a : Ambulance) :
  exists r, mutation op c a = Value r.
Proof.
  destruct op; simpl.
  - destruct (ShouldBindJSON c) as [err|entry] eqn:Hbind.
    { unfold CreateWaitingListEntry. rewrite Hbind. eauto. }
    destruct (decide (PatientId entry = "")) as [Hpid|Hpid].
    { unfold CreateWaitingListEntry. rewrite Hbind.
      apply String.eqb_eq in Hpid. rewrite Hpid. eauto. }
    destruct (IndexFunc_cases (WaitingList a)
                (conflicts (createdEntry NewString entry)))
      as [[_ Hfree]|(k & w & _ & Hw & Hconf & _)].
    + rewrite (Create_no_conflict _ _ _ _ _ Hbind Hpid Hfree). cbv zeta.
      destruct (_ <? 0) eqn:E; [eauto|].
      destruct (index_found _ _ (proj1 (Z.ltb_ge _ _) E)) as [e ->].
      simpl. eauto.
    + apply list_elem_of_lookup_2 in Hw.
      rewrite (Create_conflict _ _ _ _ _ _ Hbind Hpid Hw Hconf). eauto.
  - destruct (decide (ParamEntryId c = "")) as [Hid|Hid].
    { unfold DeleteWaitingListEntry.
      apply String.eqb_eq in Hid. rewrite Hid. eauto. }
    destruct (Z.lt_ge_cases
                (IndexFunc (WaitingList a) (fun waiting =>
                   (ParamEntryId c =? Id waiting)%string)) 0) as [Hneg|Hpos].
    + unfold DeleteWaitingListEntry.
      apply String.eqb_neq in Hid. rewrite Hid. cbv zeta.
      destruct (_ <? 0) eqn:E; [eauto | lia].
    + destruct (by_id_found _ _ Hpos) as (k & target & Hk & _).
      rewrite (Delete_found _ _ _ _ Hid Hk). eauto.
  - unfold GetWaitingListEntries. eauto.
  - unfold GetWaitingListEntry.
    destruct (ParamEntryId c =? "")%string; [eauto|]. cbv zeta.
    destruct (_ <? 0) eqn:E; [eauto|].
    destruct (index_found _ _ (proj1 (Z.ltb_ge _ _) E)) as [e ->].
    simpl. eauto.
  - destruct (ShouldBindJSON c) as [err|entry] eqn:Hbind.
    { unfold UpdateWaitingListEntry. rewrite Hbind. eauto. }
    destruct (decide (ParamEntryId c = "")) as [Hid|Hid].
    { unfold UpdateWaitingListEntry. rewrite Hbind.
      apply String.eqb_eq in Hid. rewrite Hid. eauto. }
    destruct (Z.lt_ge_cases
                (IndexFunc (WaitingList a) (fun waiting =>
                   (ParamEntryId c =? Id waiting)%string)) 0) as [Hneg|Hpos].
    + unfold UpdateWaitingListEntry. rewrite Hbind.
      apply String.eqb_neq in Hid. rewrite Hid. cbv zeta.
      destruct (_ <? 0) eqn:E; [eauto | lia].
    + destruct (by_id_found _ _ Hpos) as (k & target & Hk & Htarget & _).
      rewrite (Update_found _ _ _ _ _ _ Hbind Hid Hk Htarget). cbv zeta.
      pose proof (lookup_lt_Some _ _ _ Htarget) as Hlt.
      destruct (index_in_range
                  (WaitingList
                     (reconcileWaitingList
                        (set_WaitingList
                           (Slice (<[k := merge entry target]>
                                     (elems (WaitingList a)))) a)))
                  (Z.of_nat k)) as [e ->]; [|simpl; eauto].
      rewrite reconcileWaitingList_len. unfold len; simpl.
      rewrite length_insert. lia.
Qed.

(** ** The internal-error branch of create *)

(** C10: create has a branch that returns status 500 ("Failed to save
    entry") with a nil new state when the appended entry's id is not found
    after reconciliation (a reconciler that loses entries reaches it); with
    a reconciler that preserves the multiset of entry ids the branch is
    unreachable: no create returns status 500. *)
Theorem Create_internal_error_unreachable :
  (exists reconcile NewString c a,
     CreateWaitingListEntry reconcile NewString c a
     = Value (None, H StatusInternalServerError "Failed to save entry" None,
              StatusInternalServerError)) /\
  (forall reconcile : Ambulance -> Ambulance,
     (forall a, ids (reconcile a) ≡ₚ ids a) ->
     forall NewString c a new_state p status,
       CreateWaitingListEntry reconcile NewString c a
       = Value (new_state, p, status) ->
       status <> StatusInternalServerError).
Proof.
  split.
  - exists forgetful_reconcile, "uuid",
      (mkContext (inr (mkEntry "" "P1" 60 10)) ""),
      (mkAmbulance "amb" "Ambulance" NilSlice).
    reflexivity.
  - intros reconcile Hids NewString c a new_state p status Hrun.
    destruct (ShouldBindJSON c) as [err|entry] eqn:Hbind.
    { unfold CreateWaitingListEntry in Hrun. rewrite Hbind in Hrun.
      by injection Hrun as _ _ <-. }
    destruct (decide (PatientId entry = "")) as [Hpid|Hpid].
    { unfold CreateWaitingListEntry in Hrun. rewrite Hbind in Hrun.
      apply String.eqb_eq in Hpid. rewrite Hpid in Hrun.
      by injection Hrun as _ _ <-. }
    destruct (IndexFunc_cases (WaitingList a)
                (conflicts (createdEntry NewString entry)))
      as [[_ Hfree]|(k & w & _ & Hw & Hconf & _)].
    + rewrite (Create_no_conflict _ _ _ _ _ Hbind Hpid Hfree) in Hrun.
      cbv zeta in Hrun.
      destruct (_ <? 0) eqn:E in Hrun.
      * exfalso. apply Z.ltb_lt, IndexFunc_absent in E.
        rewrite Forall_forall in E.
        assert (Id (createdEntry NewString entry)
                ∈ ids (reconcile
                         (set_WaitingList
                            (Slice (elems (WaitingList a)
                                    ++ [createdEntry NewString entry])) a)))
          as Hin.
        { rewrite Hids. unfold ids; simpl. rewrite fmap_app.
          apply elem_of_app. right. simpl. apply list_elem_of_here. }
        apply list_elem_of_fmap in Hin as (w & Hw & Hin).
        specialize (E w Hin). apply String.eqb_neq in E. congruence.
      * apply exec_bind_Value in Hrun as (stored & _ & [= _ _ <-]). done.
    + apply list_elem_of_lookup_2 in Hw.
      rewrite (Create_conflict _ _ _ _ _ _ Hbind Hpid Hw Hconf) in Hrun.
      by injection Hrun as _ _ <-.
Qed.

Lemma ids_reconcileWaitingList a : ids (reconcileWaitingList a) ≡ₚ ids a.
Proof. unfold ids. by rewrite reconcileWaitingList_Permutation. Qed.

Lemma patientIds_reconcileWaitingList a :
  patientIds (reconcileWaitingList a) ≡ₚ patientIds a.
Proof. unfold patientIds. by rewrite reconcileWaitingList_Permutation. Qed.

Lemma Create_internal_error_unreachable_witness :
  let c := mkContext (inr (mkEntry "@new" "P3" 120 5)) "" in
  let a := mkAmbulance "amb" "Ambulance"
             (Slice [mkEntry "e1" "P1" 60 10; mkEntry "e2" "P2" 300 15]) in
  let a' := mkAmbulance "amb" "Ambulance"
              (Slice [mkEntry "e1" "P1" 60 10; mkEntry "uuid" "P3" 120 5;
                      mkEntry "e2" "P2" 300 15]) in
  CreateWaitingListEntry reconcileWaitingList "uuid" c a
  = Value (Some a', EntryPayload (mkEntry "uuid" "P3" 120 5), StatusOK) /\
  StatusOK <> StatusInternalServerError.
Proof.
  intros c a a'.
  assert (CreateWaitingListEntry reconcileWaitingList "uuid" c a
          = Value (Some a', EntryPayload (mkEntry "uuid" "P3" 120 5), StatusOK))
    as Hrun by (vm_compute; reflexivity).
  split; [exact Hrun|].
  exact (proj2 Create_internal_error_unreachable reconcileWaitingList
           ids_reconcileWaitingList "uuid" c a _ _ _ Hrun).
Defined.

(** ** Create *)

Lemma createdEntry_Id NewString entry :
  Id (createdEntry NewString entry) = createdId NewString entry.
Proof. done. Qed.

Lemma createdEntry_PatientId NewString entry :
  PatientId (createdEntry NewString entry) = PatientId entry.
Proof. done. Qed.

Lemma no_conflict_free NewString entry l :
  (forall w, w ∈ l ->
     Id w <> createdId NewString entry /\ PatientId w <> PatientId entry) ->
  Forall (fun w => conflicts (createdEntry NewString entry) w = false) l.
Proof.
  intros Hfree. apply Forall_forall. intros w Hw.
  destruct (Hfree w Hw) as [Hid Hpid]. unfold conflicts.
  rewrite createdEntry_Id, createdEntry_PatientId.
  apply orb_false_iff. split; apply String.eqb_neq; congruence.
Qed.

(** C5: a valid create (the body binds, [PatientId] is non-empty, no entry
    of the list has the id or the patient id of the new one) generates the
    id exactly when the supplied one is empty or ["@new"] and keeps it
    otherwise; it returns status 200, the reconciled list with the new
    entry as new state and, as payload, the stored entry, which carries
    that id and the request's patient id. *)
Theorem Create_valid
    (NewString : string) (c : Context) (a : Ambulance) (entry : WaitingListEntry) :
  ShouldBindJSON c = inr entry ->
  PatientId entry <> "" ->
  (forall w, w ∈ elems (WaitingList a) ->
     Id w <> createdId NewString entry /\ PatientId w <> PatientId entry) ->
  let created := createdEntry NewString entry in
  let a' :=
    reconcileWaitingList
      (set_WaitingList (Slice (elems (WaitingList a) ++ [created])) a) in
  mutation (Create NewString) c a
  = Value (Some a', EntryPayload created, StatusOK) /\
  created ∈ elems (WaitingList a') /\
  Id created
  = (if decide (Id entry = "" \/ Id entry = "@new") then NewString else Id entry) /\
  PatientId created = PatientId entry.
Proof.
  intros Hbind Hpid Hfree created a'.
  assert (created ∈ elems (WaitingList a')) as Hin.
  { unfold a'. rewrite reconcileWaitingList_Permutation. simpl.
    apply elem_of_app. right. apply list_elem_of_here. }
  split; [|split; [done|split; [|done]]].
  - simpl. apply no_conflict_free in Hfree as Hforall.
    rewrite (Create_no_conflict _ _ _ _ _ Hbind Hpid Hforall). cbv zeta.
    fold created. fold a'.
    destruct (IndexFunc_cases (WaitingList a')
                (fun waiting => (Id created =? Id waiting)%string))
      as [[_ Habsent]|(k & e & Hk & He & Hfe & _)].
    + rewrite Forall_forall in Habsent. specialize (Habsent created Hin).
      by rewrite String.eqb_refl in Habsent.
    + rewrite Hk. destruct (Z.of_nat k <? 0) eqn:E; [lia|].
      rewrite (index_lookup _ _ _ He). simpl.
      apply String.eqb_eq in Hfe.
      apply list_elem_of_lookup_2 in He. unfold a' in He.
      rewrite reconcileWaitingList_Permutation in He. simpl in He.
      apply elem_of_app in He as [He|He].
      * destruct (Hfree e He) as [Hne _]. unfold created in Hfe.
        rewrite createdEntry_Id in Hfe. congruence.
      * apply list_elem_of_singleton in He. by subst e.
  - unfold created. rewrite createdEntry_Id. unfold createdId.
    destruct (decide (Id entry = "" \/ Id entry = "@new")) as [[He|He]|Hno].
    + by rewrite He.
    + by rewrite He.
    + destruct (String.eqb_spec (Id entry) "") as [He|He]; [tauto|].
      destruct (String.eqb_spec (Id entry) "@new") as [Hn|Hn]; [tauto | done].
Qed.

Lemma Create_valid_witness :
  let entry := mkEntry "" "P1" 60 10 in
  let c := mkContext (inr entry) "" in
  let a := mkAmbulance "amb" "Ambulance" NilSlice in
  mutation (Create "uuid") c a
  = Value (Some (mkAmbulance "amb" "Ambulance" (Slice [mkEntry "uuid" "P1" 60 10])),
           EntryPayload (mkEntry "uuid" "P1" 60 10), StatusOK).
Proof.
  intros entry c a.
  assert (PatientId entry <> "") as Hpid by discriminate.
  assert (forall w, w ∈ elems (WaitingList a) ->
            Id w <> createdId "uuid" entry /\ PatientId w <> PatientId entry)
    as Hfree by (intros w Hw; inversion Hw).
  exact (proj1 (Create_valid "uuid" c a entry eq_refl Hpid Hfree)).
Defined.

(** The validation of [PatientId] comes before the conflict check: an entry
    with an existing id and no patient id is answered with 400, not 409. *)
Lemma Create_conflict_without_patientId :
  ~ (forall NewString c a entry w,
       ShouldBindJSON c = inr entry ->
       w ∈ elems (WaitingList a) ->
       createdId NewString entry = Id w \/ PatientId entry = PatientId w ->
       exists p, mutation (Create NewString) c a = Value (None, p, StatusConflict)).
Proof.
  intros Hall.
  destruct (Hall "uuid"
              (mkContext (inr (mkEntry "e1" "" 120 5)) "")
              (mkAmbulance "amb" "Ambulance" (Slice [mkEntry "e1" "P1" 60 10]))
              (mkEntry "e1" "" 120 5) (mkEntry "e1" "P1" 60 10))
    as [p Hrun].
  - reflexivity.
  - apply list_elem_of_here.
  - left. reflexivity.
  - vm_compute in Hrun. discriminate.
Qed.

(** C4, amended: a create whose body binds with a non-empty [PatientId] and
    whose id (after id generation) equals the id of an entry of the list,
    or whose patient id equals the patient id of one, returns status 409
    and a nil new state; run through the updater it issues no store write
    and the stored documents are the ones that were loaded. *)
Theorem Create_conflict_rejected
    (NewString : string) (c : Context) (a : Ambulance)
    (entry w : WaitingListEntry) :
  ShouldBindJSON c = inr entry ->
  PatientId entry <> "" ->
  w ∈ elems (WaitingList a) ->
  createdId NewString entry = Id w \/ PatientId entry = PatientId w ->
  mutation (Create NewString) c a
  = Value (None, H StatusConflict "Entry already exists" None, StatusConflict) /\
  forall ambulanceId st,
    documents st !! ambulanceId = Some a ->
    updateAmbulanceFunc ambulanceId (mutation (Create NewString) c) st
    = Value (st, Forwarded (H StatusConflict "Entry already exists" None)
                           StatusConflict).
Proof.
  intros Hbind Hpid Hw Hsame.
  assert (conflicts (createdEntry NewString entry) w = true) as Hconf.
  { unfold conflicts. rewrite createdEntry_Id, createdEntry_PatientId.
    apply orb_true_iff. destruct Hsame as [Heq|Heq]; [left|right];
      by apply String.eqb_eq. }
  pose proof (Create_conflict reconcileWaitingList _ _ _ _ _ Hbind Hpid Hw Hconf)
    as Hrun.
  split; [done|]. intros ambulanceId st Hdoc.
  by apply updateAmbulanceFunc_nil with a.
Qed.

Lemma Create_conflict_rejected_witness :
  let entry := mkEntry "" "P1" 120 5 in
  let w := mkEntry "e1" "P1" 60 10 in
  let c := mkContext (inr entry) "" in
  let a := mkAmbulance "amb" "Ambulance" (Slice [w]) in
  let st := mkStore {[ "amb" := a ]} 1 in
  mutation (Create "uuid") c a
  = Value (None, H StatusConflict "Entry already exists" None, StatusConflict) /\
  updateAmbulanceFunc "amb" (mutation (Create "uuid") c) st
  = Value (st, Forwarded (H StatusConflict "Entry already exists" None)
                         StatusConflict).
Proof.
  intros entry w c a st.
  assert (PatientId entry <> "") as Hpid by discriminate.
  assert (w ∈ elems (WaitingList a)) as Hw by apply list_elem_of_here.
  destruct (Create_conflict_rejected "uuid" c a entry w eq_refl Hpid Hw
              (or_intror eq_refl)) as [Hrun Hstore].
  split; [exact Hrun|]. apply Hstore. reflexivity.
Defined.

(** ** Uniqueness of ids and patient ids *)

Lemma unique_entries_reconcileWaitingList a :
  unique_entries (reconcileWaitingList a) <-> unique_entries a.
Proof.
  unfold unique_entries.
  by rewrite ids_reconcileWaitingList, patientIds_reconcileWaitingList.
Qed.

Lemma NoDup_insert_fresh {A : Type} (l : list A) (k : nat) (x : A) :
  NoDup l ->
  (forall (j : nat) y, j <> k -> l !! j = Some y -> y <> x) ->
  NoDup (<[k := x]> l).
Proof.
  revert k. induction l as [|y l IH]; intros k Hnd Hfresh; [done|].
  apply NoDup_cons in Hnd as [Hy Hnd]. destruct k as [|k]; simpl.
  - apply NoDup_cons. split; [|done].
    intros [j Hj]%list_elem_of_lookup. by apply (Hfresh (S j) x).
  - apply NoDup_cons. split.
    + intros [j Hj]%list_elem_of_lookup.
      apply list_lookup_insert_Some in Hj as [(_ & Heq & _)|[_ Hj]].
      * by apply (Hfresh 0%nat y).
      * apply Hy. by apply list_elem_of_lookup_2 in Hj.
    + apply IH; [done|]. intros j z Hj Hz. apply (Hfresh (S j) z); [lia | done].
Qed.

Lemma NoDup_fmap_lookup_ne {A B : Type} (f : A -> B) (l : list A)
    (j k : nat) (w t : A) :
  NoDup (f <$> l) -> l !! j = Some w -> l !! k = Some t -> j <> k -> f w <> f t.
Proof.
  intros Hnd Hj Hk Hne Heq. apply Hne.
  apply (NoDup_lookup (f <$> l) j k (f w)); [done | |].
  - by rewrite list_lookup_fmap, Hj.
  - by rewrite list_lookup_fmap, Hk, Heq.
Qed.

Lemma Create_unique NewString entry a :
  unique_entries a ->
  Forall (fun w => conflicts (createdEntry NewString entry) w = false)
         (elems (WaitingList a)) ->
  unique_entries
    (set_WaitingList
       (Slice (elems (WaitingList a) ++ [createdEntry NewString entry])) a).
Proof.
  intros [Hids Hpids] Hfree. rewrite Forall_forall in Hfree.
  unfold unique_entries, ids, patientIds; simpl. rewrite !fmap_app; simpl.
  split; apply NoDup_app; (split; [done|]);
    (split; [|apply NoDup_singleton]);
    intros x [w [-> Hw]]%list_elem_of_fmap Heq%list_elem_of_singleton;
    specialize (Hfree w Hw); unfold conflicts in Hfree;
    apply orb_false_iff in Hfree as [Hi Hp];
    apply String.eqb_neq in Hi, Hp; simpl in Hi, Hp; congruence.
Qed.

Lemma Delete_unique (k : nat) a :
  unique_entries a ->
  unique_entries (set_WaitingList (Slice (delete k (elems (WaitingList a)))) a).
Proof.
  intros [Hids Hpids]. unfold unique_entries, ids, patientIds; simpl.
  split.
  - apply (sublist_NoDup _ (ids a)); [done|].
    apply fmap_sublist, sublist_delete.
  - apply (sublist_NoDup _ (patientIds a)); [done|].
    apply fmap_sublist, sublist_delete.
Qed.

Lemma Update_unique c a entry (k : nat) target :
  unique_entries a ->
  update_collision_free c a ->
  ShouldBindJSON c = inr entry ->
  elems (WaitingList a) !! k = Some target ->
  Id target = ParamEntryId c ->
  unique_entries
    (set_WaitingList
       (Slice (<[k := merge entry target]> (elems (WaitingList a)))) a).
Proof.
  intros [Hids Hpids] Hfree Hbind Htarget Hid.
  unfold unique_entries, ids, patientIds; simpl. rewrite !list_fmap_insert.
  split; apply NoDup_insert_fresh; try done; intros j y Hj Hy;
    rewrite list_lookup_fmap in Hy;
    destruct (elems (WaitingList a) !! j) as [w|] eqn:Hw; simplify_eq/=;
    pose proof (NoDup_fmap_lookup_ne Id _ j k w target Hids Hw Htarget Hj) as Hne;
    destruct (Hfree entry w Hbind) as [Hfi Hfp];
    try (by apply list_elem_of_lookup_2 in Hw); try congruence.
  - rewrite merge_Id. destruct (String.eqb_spec (Id entry) ""); [done|].
    intros Heq. by apply Hfi.
  - rewrite merge_PatientId.
    destruct (String.eqb_spec (PatientId entry) "").
    + exact (NoDup_fmap_lookup_ne PatientId _ j k w target Hpids Hw Htarget Hj).
    + intros Heq. by apply Hfp.
Qed.

(** Update overwrites the id of an entry with the id of another one. *)
Lemma Update_breaks_uniqueness :
  ~ (forall op c a a' p status,
       unique_entries a ->
       mutation op c a = Value (Some a', p, status) ->
       success status ->
       unique_entries a').
Proof.
  intros Hall.
  destruct (Hall Update
              (mkContext (inr (mkEntry "e2" "" 0 0)) "e1")
              (mkAmbulance "amb" "Ambulance"
                 (Slice [mkEntry "e1" "P1" 60 10; mkEntry "e2" "P2" 300 15]))
              (mkAmbulance "amb" "Ambulance"
                 (Slice [mkEntry "e2" "P1" 60 10; mkEntry "e2" "P2" 300 15]))
              (EntryPayload (mkEntry "e2" "P1" 60 10)) StatusOK)
    as [Hids _].
  - split; compute_done.
  - vm_compute. reflexivity.
  - unfold success, StatusOK. lia.
  - apply NoDup_cons in Hids as [Hnot _]. apply Hnot, list_elem_of_here.
Qed.

(** C1, amended: create and delete keep the ids and the patient ids of the
    ambulance's entries pairwise distinct, and so does an update whose
    non-empty id and non-empty patient id are carried by no other entry of
    the list. *)
Theorem mutation_preserves_uniqueness
    (op : operation) (c : Context) (a a' : Ambulance) (p : payload) (status : Z) :
  unique_entries a ->
  (op = Update -> update_collision_free c a) ->
  mutation op c a = Value (Some a', p, status) ->
  success status ->
  unique_entries a'.
Proof.
  intros Huniq Hfree Hrun _. destruct op; simpl in Hrun.
  - apply Create_new_state in Hrun
      as (entry & stored & _ & _ & Hnone & -> & _).
    apply unique_entries_reconcileWaitingList. by apply Create_unique.
  - apply Delete_new_state in Hrun as (k & target & _ & _ & _ & -> & _).
    apply unique_entries_reconcileWaitingList. by apply Delete_unique.
  - discriminate.
  - unfold GetWaitingListEntry in Hrun. repeat case_match; simplify_eq.
    by destruct (index _ _).
  - apply Update_new_state in Hrun
      as (entry & k & target & merged & Hbind & _ & Htarget & Hid & _ & -> & _).
    apply unique_entries_reconcileWaitingList.
    apply (Update_unique c); [done | by apply Hfree | done..].
Qed.

Lemma mutation_preserves_uniqueness_witness :
  let c := mkContext (inr (mkEntry "e3" "" 0 0)) "e1" in
  let a := mkAmbulance "amb" "Ambulance"
             (Slice [mkEntry "e1" "P1" 60 10; mkEntry "e2" "P2" 300 15]) in
  let a' := mkAmbulance "amb" "Ambulance"
              (Slice [mkEntry "e3" "P1" 60 10; mkEntry "e2" "P2" 300 15]) in
  mutation Update c a
  = Value (Some a', EntryPayload (mkEntry "e3" "P1" 60 10), StatusOK) /\
  unique_entries a'.
Proof.
  intros c a a'.
  assert (unique_entries a) as Huniq by (split; compute_done).
  assert (update_collision_free c a) as Hfree.
  { intros entry w [= <-] Hw Hne.
    apply elem_of_cons in Hw as [->|Hw]; [done|].
    apply list_elem_of_singleton in Hw as ->. split; discriminate. }
  assert (mutation Update c a
          = Value (Some a', EntryPayload (mkEntry "e3" "P1" 60 10), StatusOK))
    as Hrun by (vm_compute; reflexivity).
  assert (success StatusOK) as Hok by (unfold success, StatusOK; lia).
  split; [exact Hrun|].
  exact (mutation_preserves_uniqueness Update c a a' _ _ Huniq
           (fun _ => Hfree) Hrun Hok).
Defined.

(** ** The payload of an update *)

(** C2: after the merge the update reconciles the list and then reads the
    payload at the index found before the merge; when the merge moves the
    target entry, the payload is another entry.  Here the target ["e1"]
    gets a later [WaitingSince], the reconciler moves it behind ["e2"], and
    the payload is ["e2"], not the merged target. *)
Theorem Update_payload_at_stale_index :
  let target := mkEntry "e1" "P1" 60 10 in
  let other := mkEntry "e2" "P2" 300 15 in
  let entry := mkEntry "" "" 600 0 in
  let c := mkContext (inr entry) "e1" in
  let a := mkAmbulance "amb" "Ambulance" (Slice [target; other]) in
  merge entry target = mkEntry "e1" "P1" 600 10 /\
  mutation Update c a
  = Value (Some (mkAmbulance "amb" "Ambulance"
                   (Slice [other; merge entry target])),
           EntryPayload other, StatusOK) /\
  other <> merge entry target.
Proof.
  intros target other entry c a.
  split; [reflexivity|]. split; [vm_compute; reflexivity | discriminate].
Qed.

(** * Further properties of the handlers *)

(** ** Responses *)

(** X1: whatever the reconciler does, an error object returned by an
    operation carries the HTTP status it is returned with, that status is
    400, 404, 409 or 500, and no new state comes with it. *)
Theorem error_response_shape
    (reconcile : Ambulance -> Ambulance) (op : operation) (c : Context)
    (a : Ambulance) (new_state : option Ambulance)
    (body_status : Z) (message : string) (error : option string) (status : Z) :
  mutation_with reconcile op c a
  = Value (new_state, H body_status message error, status) ->
  new_state = None /\ body_status = status /\
  (status = StatusBadRequest \/ status = StatusNotFound \/
   status = StatusConflict \/ status = StatusInternalServerError).
Proof.
  intros Hrun. destruct op; simpl in Hrun; run_cases Hrun; auto 10.
Qed.

(** X2: whatever the reconciler does, an operation returns a new state to
    persist exactly when it is a create, an update or a delete that ends
    with a 2xx status; a rejected request and a read never do. *)
Theorem new_state_iff_success
    (reconcile : Ambulance -> Ambulance) (op : operation) (c : Context)
    (a : Ambulance) (new_state : option Ambulance) (p : payload) (status : Z) :
  mutation_with reconcile op c a = Value (new_state, p, status) ->
  (is_Some new_state <-> mutating op = true /\ success status).
Proof.
  intros Hrun. destruct op; simpl in Hrun; run_cases Hrun;
    unfold success, StatusOK, StatusNoContent, StatusBadRequest, StatusNotFound,
      StatusConflict, StatusInternalServerError; simpl;
    (split;
     [ intros [x Hx]; simplify_eq; (split; [done | lia])
     | intros [Hm Hs]; first [ congruence | exfalso; lia | by eexists ] ]).
Qed.

Lemma new_state_iff_success_witness :
  let c := mkContext (inr (mkEntry "" "P1" 60 10)) "" in
  let a := mkAmbulance "amb" "Ambulance" NilSlice in
  let a' := mkAmbulance "amb" "Ambulance" (Slice [mkEntry "uuid" "P1" 60 10]) in
  mutation_with reconcileWaitingList (Create "uuid") c a
  = Value (Some a', EntryPayload (mkEntry "uuid" "P1" 60 10), StatusOK) /\
  (is_Some (Some a') <-> mutating (Create "uuid") = true /\ success StatusOK).
Proof.
  intros c a a'.
  assert (mutation_with reconcileWaitingList (Create "uuid") c a
          = Value (Some a', EntryPayload (mkEntry "uuid" "P1" 60 10), StatusOK))
    as Hrun by (vm_compute; reflexivity).
  split; [exact Hrun|].
  exact (new_state_iff_success reconcileWaitingList (Create "uuid") c a
           _ _ _ Hrun).
Defined.

Lemma error_response_shape_witness :
  let c := mkContext (inl "unexpected end of JSON input") "e1" in
  let a := mkAmbulance "amb" "Ambulance" NilSlice in
  mutation_with reconcileWaitingList Update c a
  = Value (None, H 400 "Invalid request body"
                   (Some "unexpected end of JSON input"), 400) /\
  (400 = StatusBadRequest \/ 400 = StatusNotFound \/
   400 = StatusConflict \/ 400 = StatusInternalServerError).
Proof.
  intros c a.
  assert (mutation_with reconcileWaitingList Update c a
          = Value (None, H 400 "Invalid request body"
                           (Some "unexpected end of JSON input"), 400))
    as Hrun by (vm_compute; reflexivity).
  split; [exact Hrun|].
  exact (proj2 (proj2 (error_response_shape reconcileWaitingList Update c a
                         _ _ _ _ _ Hrun))).
Defined.

(** X3: validation does not look at the stored state: a request that is
    answered with 400 on one ambulance is answered with the same 400 body,
    and no new state, on every other ambulance and with any reconciler. *)
Theorem bad_request_independent_of_state
    (reconcile reconcile' : Ambulance -> Ambulance) (op : operation) (c : Context)
    (a a' : Ambulance) (new_state : option Ambulance) (p : payload) :
  mutation_with reconcile op c a = Value (new_state, p, StatusBadRequest) ->
  mutation_with reconcile' op c a' = Value (None, p, StatusBadRequest).
Proof.
  intros Hrun. destruct op; simpl in *; run_cases Hrun;
    unfold CreateWaitingListEntry, DeleteWaitingListEntry,
      GetWaitingListEntry, UpdateWaitingListEntry;
    repeat match goal with
           | Heq : ?x = _ |- context [?x] => rewrite Heq
           end; done.
Qed.

Lemma bad_request_independent_of_state_witness :
  let c := mkContext (inr (mkEntry "e1" "" 60 10)) "" in
  let a := mkAmbulance "amb" "Ambulance" NilSlice in
  let a' := mkAmbulance "other" "Other" (Slice [mkEntry "e1" "P1" 60 10]) in
  mutation_with reconcileWaitingList (Create "uuid") c a
  = Value (None, H 400 "Patient ID is required" None, StatusBadRequest) /\
  mutation_with forgetful_reconcile (Create "uuid") c a'
  = Value (None, H 400 "Patient ID is required" None, StatusBadRequest).
Proof.
  intros c a a'.
  assert (mutation_with reconcileWaitingList (Create "uuid") c a
          = Value (None, H 400 "Patient ID is required" None, StatusBadRequest))
    as Hrun by (vm_compute; reflexivity).
  split; [exact Hrun|].
  exact (bad_request_independent_of_state reconcileWaitingList
           forgetful_reconcile (Create "uuid") c a a' _ _ Hrun).
Defined.

(** ** Get-one *)

Lemma unique_id_lookup a (j k : nat) w found :
  NoDup (ids a) ->
  elems (WaitingList a) !! j = Some w ->
  elems (WaitingList a) !! k = Some found ->
  Id w = Id found -> w = found.
Proof.
  intros Hnd Hj Hk Heq. destruct (decide (j = k)) as [->|Hne]; [congruence|].
  by destruct (NoDup_fmap_lookup_ne Id _ j k w found Hnd Hj Hk Hne).
Qed.

(** X4: get-one with a non-empty [entryId] carried by some entry returns
    status 200, no new state and, as payload, the first entry of the list
    with that id; when the ids of the list are pairwise distinct this is
    the entry that carries the id. *)
Theorem GetWaitingListEntry_found
    (c : Context) (a : Ambulance) (w : WaitingListEntry) :
  ParamEntryId c <> "" ->
  w ∈ elems (WaitingList a) ->
  Id w = ParamEntryId c ->
  exists (k : nat) found,
    GetWaitingListEntry c a = Value (None, EntryPayload found, StatusOK) /\
    elems (WaitingList a) !! k = Some found /\
    Id found = ParamEntryId c /\
    (forall (j : nat) e,
       (j < k)%nat -> elems (WaitingList a) !! j = Some e ->
       Id e <> ParamEntryId c) /\
    (NoDup (ids a) -> found = w).
Proof.
  intros Hid Hw Heq.
  assert (0 <= IndexFunc (WaitingList a) (fun waiting =>
                 (ParamEntryId c =? Id waiting)%string)) as Hpos.
  { apply (IndexFunc_present _ _ w Hw). by apply String.eqb_eq. }
  destruct (by_id_found _ _ Hpos) as (k & found & Hk & Hfound & Hfid & Hfirst).
  exists k, found. repeat split; [|done..|].
  - unfold GetWaitingListEntry. apply String.eqb_neq in Hid. rewrite Hid.
    cbv zeta. rewrite Hk. destruct (Z.of_nat k <? 0) eqn:E; [lia|].
    by rewrite (index_lookup _ _ _ Hfound).
  - intros Hnd. apply list_elem_of_lookup in Hw as [j Hj]. symmetry.
    apply (unique_id_lookup a j k); [done..|congruence].
Qed.

Lemma GetWaitingListEntry_found_witness :
  let c := mkContext (inl "EOF") "e2" in
  let w := mkEntry "e2" "P2" 300 15 in
  let a := mkAmbulance "amb" "Ambulance" (Slice [mkEntry "e1" "P1" 60 10; w]) in
  exists (k : nat) found,
    GetWaitingListEntry c a = Value (None, EntryPayload found, StatusOK) /\
    elems (WaitingList a) !! k = Some found /\
    Id found = "e2".
Proof.
  intros c w a.
  assert (ParamEntryId c <> "") as Hid by discriminate.
  assert (w ∈ elems (WaitingList a)) as Hw
    by apply list_elem_of_further, list_elem_of_here.
  destruct (GetWaitingListEntry_found c a w Hid Hw eq_refl)
    as (k & found & Hrun & Hk & Hfid & _).
  exists k, found. split; [exact Hrun|]. split; [exact Hk | exact Hfid].
Defined.

(** X5: get-one and update (with a body that binds) answer a non-empty
    [entryId] that no entry of the list carries with status 404 and no new
    state, whatever the reconciler does. *)
Theorem unknown_entry_not_found
    (reconcile : Ambulance -> Ambulance) (c : Context) (a : Ambulance) :
  ParamEntryId c <> "" ->
  Forall (fun w => Id w <> ParamEntryId c) (elems (WaitingList a)) ->
  GetWaitingListEntry c a
  = Value (None, H StatusNotFound "Entry not found" None, StatusNotFound) /\
  forall entry,
    ShouldBindJSON c = inr entry ->
    UpdateWaitingListEntry reconcile c a
    = Value (None, H StatusNotFound "Entry not found" None, StatusNotFound).
Proof.
  intros Hid Habsent.
  assert (IndexFunc (WaitingList a)
            (fun waiting => (ParamEntryId c =? Id waiting)%string) < 0) as Hi.
  { apply IndexFunc_absent. eapply Forall_impl; [exact Habsent|].
    intros w Hw. apply String.eqb_neq. congruence. }
  apply String.eqb_neq in Hid. split.
  - unfold GetWaitingListEntry. rewrite Hid. cbv zeta.
    destruct (_ <? 0) eqn:E; [done | lia].
  - intros entry Hbind. unfold UpdateWaitingListEntry. rewrite Hbind, Hid.
    cbv zeta. destruct (_ <? 0) eqn:E; [done | lia].
Qed.

Lemma unknown_entry_not_found_witness :
  let c := mkContext (inr (mkEntry "" "P9" 0 0)) "e9" in
  let a := mkAmbulance "amb" "Ambulance" (Slice [mkEntry "e1" "P1" 60 10]) in
  GetWaitingListEntry c a
  = Value (None, H StatusNotFound "Entry not found" None, StatusNotFound) /\
  UpdateWaitingListEntry reconcileWaitingList c a
  = Value (None, H StatusNotFound "Entry not found" None, StatusNotFound).
Proof.
  intros c a.
  assert (ParamEntryId c <> "") as Hid by discriminate.
  assert (Forall (fun w => Id w <> ParamEntryId c) (elems (WaitingList a)))
    as Habsent by (repeat constructor; discriminate).
  destruct (unknown_entry_not_found reconcileWaitingList c a Hid Habsent)
    as [Hget Hupdate].
  split; [exact Hget|]. exact (Hupdate _ eq_refl).
Defined.

Lemma GetWaitingListEntry_absent c a :
  ParamEntryId c <> "" ->
  Forall (fun w => Id w <> ParamEntryId c) (elems (WaitingList a)) ->
  GetWaitingListEntry c a
  = Value (None, H StatusNotFound "Entry not found" None, StatusNotFound).
Proof.
  intros Hid Habsent.
  assert (IndexFunc (WaitingList a)
            (fun waiting => (ParamEntryId c =? Id waiting)%string) < 0) as Hi.
  { apply IndexFunc_absent. eapply Forall_impl; [exact Habsent|].
    intros w Hw. apply String.eqb_neq. congruence. }
  apply String.eqb_neq in Hid. unfold GetWaitingListEntry. rewrite Hid.
  cbv zeta. destruct (_ <? 0) eqn:E; [done | lia].
Qed.

Lemma GetWaitingListEntry_present c a (k : nat) found :
  ParamEntryId c <> "" ->
  IndexFunc (WaitingList a) (fun waiting =>
    (ParamEntryId c =? Id waiting)%string) = Z.of_nat k ->
  elems (WaitingList a) !! k = Some found ->
  GetWaitingListEntry c a = Value (None, EntryPayload found, StatusOK).
Proof.
  intros Hid Hk Hfound. unfold GetWaitingListEntry.
  apply String.eqb_neq in Hid. rewrite Hid. cbv zeta. rewrite Hk.
  destruct (Z.of_nat k <? 0) eqn:E; [lia|].
  by rewrite (index_lookup _ _ _ Hfound).
Qed.

(** ** Create, then read or delete *)

Lemma createdId_nonempty NewString entry :
  NewString <> "" -> createdId NewString entry <> "".
Proof.
  intros Hnew. unfold createdId.
  destruct (String.eqb_spec (Id entry) ""); simpl; [done|].
  by destruct (Id entry =? "@new")%string.
Qed.

(** A successful create, with the place of the stored entry. *)
Lemma Create_stored reconcile NewString c a a' p status :
  CreateWaitingListEntry reconcile NewString c a = Value (Some a', p, status) ->
  exists entry (k : nat) stored,
    ShouldBindJSON c = inr entry /\ PatientId entry <> "" /\
    Forall (fun w => conflicts (createdEntry NewString entry) w = false)
           (elems (WaitingList a)) /\
    a' = reconcile
           (set_WaitingList
              (Slice (elems (WaitingList a) ++ [createdEntry NewString entry])) a) /\
    IndexFunc (WaitingList a') (fun waiting =>
      (createdId NewString entry =? Id waiting)%string) = Z.of_nat k /\
    elems (WaitingList a') !! k = Some stored /\
    Id stored = createdId NewString entry /\
    p = EntryPayload stored /\ status = StatusOK.
Proof.
  intros Hrun.
  apply Create_new_state in Hrun
    as (entry & stored & Hbind & Hpid & Hfree & Ha' & Hpos & Hindex & -> & ->).
  destruct (by_id_found _ _ Hpos) as (k & target & Hk & Htarget & Hid & _).
  rewrite Hk, (index_lookup _ _ _ Htarget) in Hindex.
  injection Hindex as <-. by exists entry, k, target.
Qed.

Lemma conflict_free_entry NewString entry l e :
  Forall (fun w => conflicts (createdEntry NewString entry) w = false) l ->
  e ∈ l ++ [createdEntry NewString entry] ->
  Id e = createdId NewString entry ->
  e = createdEntry NewString entry.
Proof.
  intros Hfree [He|He]%elem_of_app Hid.
  - rewrite Forall_forall in Hfree. specialize (Hfree e He).
    unfold conflicts in Hfree. apply orb_false_iff in Hfree as [Hi _].
    apply String.eqb_neq in Hi. simpl in Hi. congruence.
  - by apply list_elem_of_singleton in He.
Qed.

(** X6: whatever the reconciler does, the entry a successful create returns
    is the one a get-one of its id returns on the new state (the generated
    id being non-empty, as a UUID is). *)
Theorem Create_then_GetWaitingListEntry
    (reconcile : Ambulance -> Ambulance) (NewString : string) (c c' : Context)
    (a a' : Ambulance) (stored : WaitingListEntry) (status : Z) :
  NewString <> "" ->
  CreateWaitingListEntry reconcile NewString c a
  = Value (Some a', EntryPayload stored, status) ->
  ParamEntryId c' = Id stored ->
  GetWaitingListEntry c' a' = Value (None, EntryPayload stored, StatusOK).
Proof.
  intros Hnew Hrun Hc'.
  apply Create_stored in Hrun
    as (entry & k & stored' & _ & _ & _ & _ & Hk & Hstored & Hid & [= <-] & _).
  apply (GetWaitingListEntry_present c' a' k).
  - rewrite Hc', Hid. by apply createdId_nonempty.
  - by rewrite Hc', Hid.
  - done.
Qed.

Lemma Create_then_GetWaitingListEntry_witness :
  let c := mkContext (inr (mkEntry "@new" "P3" 120 5)) "" in
  let c' := mkContext (inl "EOF") "uuid" in
  let a := mkAmbulance "amb" "Ambulance"
             (Slice [mkEntry "e1" "P1" 60 10; mkEntry "e2" "P2" 300 15]) in
  let a' := mkAmbulance "amb" "Ambulance"
              (Slice [mkEntry "e1" "P1" 60 10; mkEntry "uuid" "P3" 120 5;
                      mkEntry "e2" "P2" 300 15]) in
  CreateWaitingListEntry reconcileWaitingList "uuid" c a
  = Value (Some a', EntryPayload (mkEntry "uuid" "P3" 120 5), StatusOK) /\
  GetWaitingListEntry c' a'
  = Value (None, EntryPayload (mkEntry "uuid" "P3" 120 5), StatusOK).
Proof.
  intros c c' a a'.
  assert ("uuid" <> "") as Hnew by discriminate.
  assert (CreateWaitingListEntry reconcileWaitingList "uuid" c a
          = Value (Some a', EntryPayload (mkEntry "uuid" "P3" 120 5), StatusOK))
    as Hrun by (vm_compute; reflexivity).
  split; [exact Hrun|].
  exact (Create_then_GetWaitingListEntry reconcileWaitingList "uuid" c c' a a'
           _ _ Hnew Hrun eq_refl).
Defined.

(** X7: with a reconciler that only reorders the entries, a successful
    create returns status 200 and the created entry itself (the bound body
    with its final id) as payload, and the new list holds the old entries
    and the created one, nothing else. *)
Theorem Create_adds_created_entry
    (reconcile : Ambulance -> Ambulance) (NewString : string) (c : Context)
    (a a' : Ambulance) (p : payload) (status : Z) :
  preserves_entries reconcile ->
  CreateWaitingListEntry reconcile NewString c a = Value (Some a', p, status) ->
  exists entry,
    ShouldBindJSON c = inr entry /\
    p = EntryPayload (createdEntry NewString entry) /\
    status = StatusOK /\
    elems (WaitingList a')
    ≡ₚ elems (WaitingList a) ++ [createdEntry NewString entry].
Proof.
  intros Hperm Hrun.
  apply Create_stored in Hrun
    as (entry & k & stored & Hbind & _ & Hfree & -> & _ & Hstored & Hid & -> & ->).
  assert (elems (WaitingList
                   (reconcile
                      (set_WaitingList
                         (Slice (elems (WaitingList a)
                                 ++ [createdEntry NewString entry])) a)))
          ≡ₚ elems (WaitingList a) ++ [createdEntry NewString entry]) as Hnew
    by apply Hperm.
  exists entry. repeat split; [done | | done].
  f_equal. apply (conflict_free_entry NewString entry (elems (WaitingList a)));
    [done | | done].
  rewrite <- Hnew. by apply list_elem_of_lookup_2 in Hstored.
Qed.

Lemma reconcileWaitingList_preserves_entries :
  preserves_entries reconcileWaitingList.
Proof. intros a. apply reconcileWaitingList_Permutation. Qed.

Lemma Create_adds_created_entry_witness :
  let entry := mkEntry "@new" "P3" 120 5 in
  let c := mkContext (inr entry) "" in
  let a := mkAmbulance "amb" "Ambulance"
             (Slice [mkEntry "e1" "P1" 60 10; mkEntry "e2" "P2" 300 15]) in
  let a' := mkAmbulance "amb" "Ambulance"
              (Slice [mkEntry "e1" "P1" 60 10; mkEntry "uuid" "P3" 120 5;
                      mkEntry "e2" "P2" 300 15]) in
  exists entry',
    ShouldBindJSON c = inr entry' /\
    EntryPayload (mkEntry "uuid" "P3" 120 5)
    = EntryPayload (createdEntry "uuid" entry') /\
    StatusOK = StatusOK /\
    elems (WaitingList a')
    ≡ₚ elems (WaitingList a) ++ [createdEntry "uuid" entry'].
Proof.
  intros entry c a a'.
  assert (CreateWaitingListEntry reconcileWaitingList "uuid" c a
          = Value (Some a', EntryPayload (mkEntry "uuid" "P3" 120 5), StatusOK))
    as Hrun by (vm_compute; reflexivity).
  exact (Create_adds_created_entry reconcileWaitingList "uuid" c a a' _ _
           reconcileWaitingList_preserves_entries Hrun).
Defined.

(** ** Delete *)

(** A delete of an id that some entry carries, with the place of the
    removed entry. *)
Lemma Delete_present reconcile c a w :
  ParamEntryId c <> "" ->
  w ∈ elems (WaitingList a) ->
  Id w = ParamEntryId c ->
  exists (k : nat) target,
    elems (WaitingList a) !! k = Some target /\
    Id target = ParamEntryId c /\
    DeleteWaitingListEntry reconcile c a
    = Value (Some (reconcile
                     (set_WaitingList
                        (Slice (delete k (elems (WaitingList a)))) a)),
             NoPayload, StatusNoContent).
Proof.
  intros Hid Hw Heq.
  assert (0 <= IndexFunc (WaitingList a) (fun waiting =>
                 (ParamEntryId c =? Id waiting)%string)) as Hpos.
  { apply (IndexFunc_present _ _ w Hw). by apply String.eqb_eq. }
  destruct (by_id_found _ _ Hpos) as (k & target & Hk & Htarget & Htid & _).
  exists k, target. repeat split; [done..|]. by apply Delete_found.
Qed.

Lemma removed_id_absent (l : list WaitingListEntry) (k : nat) target :
  NoDup (Id <$> l) ->
  l !! k = Some target ->
  Forall (fun e => Id e <> Id target) (delete k l).
Proof.
  intros Hnd Hk. rewrite (delete_Permutation l k target Hk) in Hnd.
  rewrite fmap_cons in Hnd. apply NoDup_cons in Hnd as [Hnot _].
  apply Forall_forall. intros e He Heq. apply Hnot.
  apply list_elem_of_fmap. by exists e.
Qed.

(** X8: with a reconciler that only reorders the entries, a delete whose
    non-empty [entryId] some entry carries returns status 204 with no
    payload, and the new list is the old one without one entry of that id;
    when the ids are pairwise distinct no entry of that id is left. *)
Theorem Delete_removes_one_entry
    (reconcile : Ambulance -> Ambulance) (c : Context) (a : Ambulance)
    (w : WaitingListEntry) :
  preserves_entries reconcile ->
  ParamEntryId c <> "" ->
  w ∈ elems (WaitingList a) ->
  Id w = ParamEntryId c ->
  exists target a',
    DeleteWaitingListEntry reconcile c a
    = Value (Some a', NoPayload, StatusNoContent) /\
    Id target = ParamEntryId c /\
    elems (WaitingList a) ≡ₚ target :: elems (WaitingList a') /\
    (NoDup (ids a) ->
     Forall (fun e => Id e <> ParamEntryId c) (elems (WaitingList a'))).
Proof.
  intros Hperm Hid Hw Heq.
  destruct (Delete_present reconcile c a w Hid Hw Heq)
    as (k & target & Hk & Htid & Hrun).
  exists target. eexists. split; [exact Hrun|]. split; [done|].
  pose proof (Hperm (set_WaitingList
                       (Slice (delete k (elems (WaitingList a)))) a)) as Hnew.
  simpl in Hnew. split.
  - rewrite Hnew. by apply delete_Permutation.
  - intros Hnd. rewrite Hnew, <- Htid. by apply removed_id_absent.
Qed.

Lemma Delete_removes_one_entry_witness :
  let c := mkContext (inl "EOF") "e1" in
  let w := mkEntry "e1" "P1" 60 10 in
  let a := mkAmbulance "amb" "Ambulance" (Slice [w; mkEntry "e2" "P2" 300 15]) in
  exists target a',
    DeleteWaitingListEntry reconcileWaitingList c a
    = Value (Some a', NoPayload, StatusNoContent) /\
    Id target = "e1" /\
    elems (WaitingList a) ≡ₚ target :: elems (WaitingList a').
Proof.
  intros c w a.
  assert (ParamEntryId c <> "") as Hid by discriminate.
  assert (w ∈ elems (WaitingList a)) as Hw by apply list_elem_of_here.
  destruct (Delete_removes_one_entry reconcileWaitingList c a w
              reconcileWaitingList_preserves_entries Hid Hw eq_refl)
    as (target & a' & Hrun & Htid & Hperm & _).
  exists target, a'. split; [exact Hrun|]. split; [exact Htid | exact Hperm].
Defined.

(** X9: with a reconciler that only reorders the entries and pairwise
    distinct ids, a get-one of the id just deleted is answered with 404 on
    the new state. *)
Theorem Delete_then_GetWaitingListEntry
    (reconcile : Ambulance -> Ambulance) (c : Context) (a a' : Ambulance)
    (p : payload) (status : Z) :
  preserves_entries reconcile ->
  NoDup (ids a) ->
  DeleteWaitingListEntry reconcile c a = Value (Some a', p, status) ->
  GetWaitingListEntry c a'
  = Value (None, H StatusNotFound "Entry not found" None, StatusNotFound).
Proof.
  intros Hperm Hnd Hrun.
  apply Delete_new_state in Hrun as (k & target & Hid & Hk & Htid & -> & _).
  apply GetWaitingListEntry_absent; [done|].
  rewrite (Hperm _). simpl. rewrite <- Htid. by apply removed_id_absent.
Qed.

Lemma Delete_then_GetWaitingListEntry_witness :
  let c := mkContext (inl "EOF") "e1" in
  let a := mkAmbulance "amb" "Ambulance"
             (Slice [mkEntry "e1" "P1" 60 10; mkEntry "e2" "P2" 300 15]) in
  let a' := mkAmbulance "amb" "Ambulance" (Slice [mkEntry "e2" "P2" 300 15]) in
  DeleteWaitingListEntry reconcileWaitingList c a
  = Value (Some a', NoPayload, StatusNoContent) /\
  GetWaitingListEntry c a'
  = Value (None, H StatusNotFound "Entry not found" None, StatusNotFound).
Proof.
  intros c a a'.
  assert (NoDup (ids a)) as Hnd by compute_done.
  assert (DeleteWaitingListEntry reconcileWaitingList c a
          = Value (Some a', NoPayload, StatusNoContent))
    as Hrun by (vm_compute; reflexivity).
  split; [exact Hrun|].
  exact (Delete_then_GetWaitingListEntry reconcileWaitingList c a a' _ _
           reconcileWaitingList_preserves_entries Hnd Hrun).
Defined.

(** X10: with a reconciler that only reorders the entries, deleting the
    entry a create has just stored (by the id of the returned entry, the
    generated id being non-empty) succeeds and leaves the entries the list
    had before the create. *)
Theorem Create_then_DeleteWaitingListEntry
    (reconcile : Ambulance -> Ambulance) (NewString : string) (c c' : Context)
    (a a' : Ambulance) (stored : WaitingListEntry) (status : Z) :
  preserves_entries reconcile ->
  NewString <> "" ->
  CreateWaitingListEntry reconcile NewString c a
  = Value (Some a', EntryPayload stored, status) ->
  ParamEntryId c' = Id stored ->
  exists a'',
    DeleteWaitingListEntry reconcile c' a'
    = Value (Some a'', NoPayload, StatusNoContent) /\
    elems (WaitingList a'') ≡ₚ elems (WaitingList a).
Proof.
  intros Hperm Hnew Hrun Hc'.
  apply Create_stored in Hrun
    as (entry & k & stored' & _ & _ & Hfree & Ha' & _ & Hstored & Hid
        & [= <-] & _).
  assert (ParamEntryId c' <> "") as Hne
    by (rewrite Hc', Hid; by apply createdId_nonempty).
  apply list_elem_of_lookup_2 in Hstored.
  destruct (Delete_present reconcile c' a' stored Hne Hstored (eq_sym Hc'))
    as (j & target & Hj & Htid & Hdel).
  eexists. split; [exact Hdel|].
  rewrite (Hperm _). simpl.
  assert (elems (WaitingList a')
          ≡ₚ elems (WaitingList a) ++ [createdEntry NewString entry]) as Hnew'
    by (rewrite Ha'; apply Hperm).
  assert (target = createdEntry NewString entry) as ->.
  { apply (conflict_free_entry NewString entry (elems (WaitingList a)));
      [done | | congruence].
    rewrite <- Hnew'. by apply list_elem_of_lookup_2 in Hj. }
  apply (inj (cons (createdEntry NewString entry))).
  rewrite <- (delete_Permutation _ _ _ Hj), Hnew'.
  by rewrite Permutation_app_comm.
Qed.

Lemma Create_then_DeleteWaitingListEntry_witness :
  let c := mkContext (inr (mkEntry "@new" "P3" 120 5)) "" in
  let c' := mkContext (inl "EOF") "uuid" in
  let a := mkAmbulance "amb" "Ambulance"
             (Slice [mkEntry "e1" "P1" 60 10; mkEntry "e2" "P2" 300 15]) in
  exists a'',
    DeleteWaitingListEntry reconcileWaitingList c'
      (mkAmbulance "amb" "Ambulance"
         (Slice [mkEntry "e1" "P1" 60 10; mkEntry "uuid" "P3" 120 5;
                 mkEntry "e2" "P2" 300 15]))
    = Value (Some a'', NoPayload, StatusNoContent) /\
    elems (WaitingList a'') ≡ₚ elems (WaitingList a).
Proof.
  intros c c' a.
  assert ("uuid" <> "") as Hnew by discriminate.
  assert (CreateWaitingListEntry reconcileWaitingList "uuid" c a
          = Value (Some (mkAmbulance "amb" "Ambulance"
                           (Slice [mkEntry "e1" "P1" 60 10;
                                   mkEntry "uuid" "P3" 120 5;
                                   mkEntry "e2" "P2" 300 15])),
                   EntryPayload (mkEntry "uuid" "P3" 120 5), StatusOK))
    as Hrun by (vm_compute; reflexivity).
  exact (Create_then_DeleteWaitingListEntry reconcileWaitingList "uuid" c c' a
           _ _ _ reconcileWaitingList_preserves_entries Hnew Hrun eq_refl).
Defined.

(** ** Update *)

Lemma merge_unpopulated entry target :
  unpopulated entry -> merge entry target = target.
Proof.
  intros (Hp & Hi & Hw & Hd). unfold merge. rewrite Hp, Hi. simpl.
  destruct (0 <? WaitingSince entry) eqn:E1; [lia|].
  destruct (0 <? EstimatedDurationMinutes entry) eqn:E2; [lia | done].
Qed.

Lemma merge_merge entry target :
  merge entry (merge entry target) = merge entry target.
Proof.
  unfold merge.
  destruct (negb (PatientId entry =? "")%string),
    (negb (Id entry =? "")%string), (0 <? WaitingSince entry),
    (0 <? EstimatedDurationMinutes entry); reflexivity.
Qed.

Lemma set_WaitingList_same a (k : nat) e :
  elems (WaitingList a) !! k = Some e ->
  set_WaitingList (Slice (elems (WaitingList a))) a = a.
Proof.
  intros Hk. apply lookup_Slice in Hk. destruct a as [i n s]; simpl in *.
  unfold set_WaitingList; simpl. by rewrite <- Hk.
Qed.

(** X11: with a reconciler that only reorders the entries, a successful
    update returns status 200 and changes one entry only: the new list
    holds the old entries with the first one of the requested id replaced
    by its merge with the body; the number of entries is unchanged and the
    payload is an entry of the new list. *)
Theorem Update_replaces_target
    (reconcile : Ambulance -> Ambulance) (c : Context) (a a' : Ambulance)
    (p : payload) (status : Z) :
  preserves_entries reconcile ->
  UpdateWaitingListEntry reconcile c a = Value (Some a', p, status) ->
  exists entry (k : nat) target returned,
    ShouldBindJSON c = inr entry /\
    elems (WaitingList a) !! k = Some target /\
    Id target = ParamEntryId c /\
    (forall (j : nat) w,
       (j < k)%nat -> elems (WaitingList a) !! j = Some w ->
       Id w <> ParamEntryId c) /\
    elems (WaitingList a')
    ≡ₚ <[k := merge entry target]> (elems (WaitingList a)) /\
    length (elems (WaitingList a')) = length (elems (WaitingList a)) /\
    p = EntryPayload returned /\ returned ∈ elems (WaitingList a') /\
    status = StatusOK.
Proof.
  intros Hperm Hrun.
  apply Update_new_state in Hrun
    as (entry & k & target & merged & Hbind & _ & Htarget & Htid & Hfirst
        & Ha' & Hindex & -> & ->).
  assert (elems (WaitingList a')
          ≡ₚ <[k := merge entry target]> (elems (WaitingList a))) as Hnew
    by (rewrite Ha'; apply Hperm).
  exists entry, k, target, merged. repeat split; [done..| | |].
  - done.
  - by rewrite Hnew, length_insert.
  - apply index_Value in Hindex as (k' & _ & Hk').
    by apply list_elem_of_lookup_2 in Hk'.
Qed.

Lemma Update_replaces_target_witness :
  let c := mkContext (inr (mkEntry "" "P7" 0 20)) "e2" in
  let a := mkAmbulance "amb" "Ambulance"
             (Slice [mkEntry "e1" "P1" 60 10; mkEntry "e2" "P2" 300 15]) in
  let a' := mkAmbulance "amb" "Ambulance"
              (Slice [mkEntry "e1" "P1" 60 10; mkEntry "e2" "P7" 300 20]) in
  UpdateWaitingListEntry reconcileWaitingList c a
  = Value (Some a', EntryPayload (mkEntry "e2" "P7" 300 20), StatusOK) /\
  length (elems (WaitingList a')) = length (elems (WaitingList a)).
Proof.
  intros c a a'.
  assert (UpdateWaitingListEntry reconcileWaitingList c a
          = Value (Some a', EntryPayload (mkEntry "e2" "P7" 300 20), StatusOK))
    as Hrun by (vm_compute; reflexivity).
  split; [exact Hrun|].
  destruct (Update_replaces_target reconcileWaitingList c a a' _ _
              reconcileWaitingList_preserves_entries Hrun)
    as (entry & k & target & returned & _ & _ & _ & _ & _ & Hlen & _).
  exact Hlen.
Defined.

(** X12: an update whose body populates none of the four fields still
    succeeds for a matching [entryId]: with a reconciler that keeps the
    number of entries it returns status 200 and, as new state to persist,
    the reconciled ambulance, no entry being changed. *)
Theorem Update_unpopulated_body
    (reconcile : Ambulance -> Ambulance) (c : Context) (a : Ambulance)
    (entry w : WaitingListEntry) :
  preserves_length reconcile ->
  ShouldBindJSON c = inr entry ->
  unpopulated entry ->
  ParamEntryId c <> "" ->
  w ∈ elems (WaitingList a) ->
  Id w = ParamEntryId c ->
  exists returned,
    UpdateWaitingListEntry reconcile c a
    = Value (Some (reconcile a), EntryPayload returned, StatusOK).
Proof.
  intros Hlen Hbind Hempty Hid Hw Heq.
  assert (0 <= IndexFunc (WaitingList a) (fun waiting =>
                 (ParamEntryId c =? Id waiting)%string)) as Hpos.
  { apply (IndexFunc_present _ _ w Hw). by apply String.eqb_eq. }
  destruct (by_id_found _ _ Hpos) as (k & target & Hk & Htarget & _).
  rewrite (Update_found _ _ _ _ _ _ Hbind Hid Hk Htarget). cbv zeta.
  rewrite (merge_unpopulated _ _ Hempty), list_insert_id by done.
  rewrite (set_WaitingList_same _ _ _ Htarget).
  destruct (index_in_range (WaitingList (reconcile a)) (Z.of_nat k))
    as [returned ->]; [|by exists returned].
  rewrite Hlen. unfold len. apply lookup_lt_Some in Htarget. lia.
Qed.

Lemma reconcileWaitingList_preserves_length :
  preserves_length reconcileWaitingList.
Proof. intros a. apply reconcileWaitingList_len. Qed.

Lemma Update_unpopulated_body_witness :
  let entry := mkEntry "" "" 0 0 in
  let c := mkContext (inr entry) "e2" in
  let w := mkEntry "e2" "P2" 300 15 in
  let a := mkAmbulance "amb" "Ambulance" (Slice [w; mkEntry "e1" "P1" 60 10]) in
  exists returned,
    UpdateWaitingListEntry reconcileWaitingList c a
    = Value (Some (reconcileWaitingList a), EntryPayload returned, StatusOK).
Proof.
  intros entry c w a.
  assert (unpopulated entry) as Hempty
    by (unfold unpopulated; simpl; repeat split; lia).
  assert (ParamEntryId c <> "") as Hid by discriminate.
  assert (w ∈ elems (WaitingList a)) as Hw by apply list_elem_of_here.
  exact (Update_unpopulated_body reconcileWaitingList c a entry w
           reconcileWaitingList_preserves_length eq_refl Hempty Hid Hw eq_refl).
Defined.

(** ** Entries keep their identifiers *)

Lemma merge_identified entry target :
  Id target <> "" /\ PatientId target <> "" ->
  Id (merge entry target) <> "" /\ PatientId (merge entry target) <> "".
Proof.
  intros [Hi Hp]. rewrite merge_Id, merge_PatientId.
  split.
  - by destruct (String.eqb_spec (Id entry) "").
  - by destruct (String.eqb_spec (PatientId entry) "").
Qed.

(** X13: with a reconciler that only reorders the entries and non-empty
    generated ids, no operation stores an entry without id or without
    patient id: if every entry has both before a create, update or delete,
    every entry of the new state has both. *)
Theorem mutation_keeps_entries_identified
    (reconcile : Ambulance -> Ambulance) (op : operation) (c : Context)
    (a a' : Ambulance) (p : payload) (status : Z) :
  preserves_entries reconcile ->
  (forall NewString, op = Create NewString -> NewString <> "") ->
  identified a ->
  mutation_with reconcile op c a = Value (Some a', p, status) ->
  identified a'.
Proof.
  intros Hperm Hnew Hident Hrun. unfold identified in *.
  destruct op; simpl in Hrun.
  - apply Create_stored in Hrun
      as (entry & _ & _ & _ & Hpid & _ & -> & _).
    rewrite (Hperm _). simpl. apply Forall_app. split; [done|].
    repeat constructor; simpl; [|done].
    apply createdId_nonempty. by apply (Hnew NewString).
  - apply Delete_new_state in Hrun as (k & target & _ & _ & _ & -> & _).
    rewrite (Hperm _). simpl. by apply Forall_delete.
  - discriminate.
  - unfold GetWaitingListEntry in Hrun. repeat case_match; simplify_eq.
    by destruct (index _ _).
  - apply Update_new_state in Hrun
      as (entry & k & target & merged & _ & _ & Htarget & _ & _ & -> & _).
    rewrite (Hperm _). simpl. apply Forall_insert; [done|].
    apply merge_identified. by apply (Forall_lookup_1 _ _ _ _ Hident Htarget).
Qed.

Lemma mutation_keeps_entries_identified_witness :
  let c := mkContext (inr (mkEntry "@new" "P3" 120 5)) "" in
  let a := mkAmbulance "amb" "Ambulance" (Slice [mkEntry "e1" "P1" 60 10]) in
  let a' := mkAmbulance "amb" "Ambulance"
              (Slice [mkEntry "e1" "P1" 60 10; mkEntry "uuid" "P3" 120 5]) in
  mutation_with reconcileWaitingList (Create "uuid") c a
  = Value (Some a', EntryPayload (mkEntry "uuid" "P3" 120 5), StatusOK) /\
  identified a'.
Proof.
  intros c a a'.
  assert (forall NewString, Create "uuid" = Create NewString -> NewString <> "")
    as Hnew by (intros NewString [= <-]; discriminate).
  assert (identified a) as Hident
    by (repeat constructor; discriminate).
  assert (mutation_with reconcileWaitingList (Create "uuid") c a
          = Value (Some a', EntryPayload (mkEntry "uuid" "P3" 120 5), StatusOK))
    as Hrun by (vm_compute; reflexivity).
  split; [exact Hrun|].
  exact (mutation_keeps_entries_identified reconcileWaitingList (Create "uuid")
           c a a' _ _ reconcileWaitingList_preserves_entries Hnew Hident Hrun).
Defined.

(** ** Index safety and the reconciler *)

Lemma Create_returns reconcile NewString c a :
  exists r, CreateWaitingListEntry reconcile NewString c a = Value r.
Proof.
  destruct (ShouldBindJSON c) as [err|entry] eqn:Hbind.
  { unfold CreateWaitingListEntry. rewrite Hbind. eauto. }
  destruct (decide (PatientId entry = "")) as [Hpid|Hpid].
  { unfold CreateWaitingListEntry. rewrite Hbind.
    apply String.eqb_eq in Hpid. rewrite Hpid. eauto. }
  destruct (IndexFunc_cases (WaitingList a)
              (conflicts (createdEntry NewString entry)))
    as [[_ Hfree]|(k & w & _ & Hw & Hconf & _)].
  - rewrite (Create_no_conflict _ _ _ _ _ Hbind Hpid Hfree). cbv zeta.
    destruct (_ <? 0) eqn:E; [eauto|].
    destruct (index_found _ _ (proj1 (Z.ltb_ge _ _) E)) as [e ->].
    simpl. eauto.
  - apply list_elem_of_lookup_2 in Hw.
    rewrite (Create_conflict _ _ _ _ _ _ Hbind Hpid Hw Hconf). eauto.
Qed.

Lemma Delete_returns reconcile c a :
  exists r, DeleteWaitingListEntry reconcile c a = Value r.
Proof.
  destruct (decide (ParamEntryId c = "")) as [Hid|Hid].
  { unfold DeleteWaitingListEntry.
    apply String.eqb_eq in Hid. rewrite Hid. eauto. }
  destruct (Z.lt_ge_cases
              (IndexFunc (WaitingList a) (fun waiting =>
                 (ParamEntryId c =? Id waiting)%string)) 0) as [Hneg|Hpos].
  - unfold DeleteWaitingListEntry.
    apply String.eqb_neq in Hid. rewrite Hid. cbv zeta.
    destruct (_ <? 0) eqn:E; [eauto | lia].
  - destruct (by_id_found _ _ Hpos) as (k & target & Hk & _).
    rewrite (Delete_found _ _ _ _ Hid Hk). eauto.
Qed.

Lemma GetWaitingListEntry_returns c a :
  exists r, GetWaitingListEntry c a = Value r.
Proof.
  unfold GetWaitingListEntry.
  destruct (ParamEntryId c =? "")%string; [eauto|]. cbv zeta.
  destruct (_ <? 0) eqn:E; [eauto|].
  destruct (index_found _ _ (proj1 (Z.ltb_ge _ _) E)) as [e ->].
  simpl. eauto.
Qed.

Lemma Update_returns reconcile c a :
  preserves_length reconcile ->
  exists r, UpdateWaitingListEntry reconcile c a = Value r.
Proof.
  intros Hlen. destruct (ShouldBindJSON c) as [err|entry] eqn:Hbind.
  { unfold UpdateWaitingListEntry. rewrite Hbind. eauto. }
  destruct (decide (ParamEntryId c = "")) as [Hid|Hid].
  { unfold UpdateWaitingListEntry. rewrite Hbind.
    apply String.eqb_eq in Hid. rewrite Hid. eauto. }
  destruct (Z.lt_ge_cases
              (IndexFunc (WaitingList a) (fun waiting =>
                 (ParamEntryId c =? Id waiting)%string)) 0) as [Hneg|Hpos].
  - unfold UpdateWaitingListEntry. rewrite Hbind.
    apply String.eqb_neq in Hid. rewrite Hid. cbv zeta.
    destruct (_ <? 0) eqn:E; [eauto | lia].
  - destruct (by_id_found _ _ Hpos) as (k & target & Hk & Htarget & _).
    rewrite (Update_found _ _ _ _ _ _ Hbind Hid Hk Htarget). cbv zeta.
    pose proof (lookup_lt_Some _ _ _ Htarget) as Hlt.
    destruct (index_in_range
                (WaitingList
                   (reconcile
                      (set_WaitingList
                         (Slice (<[k := merge entry target]>
                                   (elems (WaitingList a)))) a)))
                (Z.of_nat k)) as [e ->]; [|simpl; eauto].
    rewrite Hlen. unfold len; simpl. rewrite length_insert. lia.
Qed.

(** X14: create, delete, get-all and get-one go out of range for no
    reconciler at all; update reads the list once more after reconciling,
    at the index found before, so it is safe with every reconciler that
    keeps the number of entries and panics with one that drops entries. *)
Theorem index_safety_depends_on_reconciler :
  (forall reconcile op c a,
     op <> Update -> exists r, mutation_with reconcile op c a = Value r) /\
  (forall reconcile c a,
     preserves_length reconcile ->
     exists r, mutation_with reconcile Update c a = Value r) /\
  (exists c a, mutation_with forgetful_reconcile Update c a = Panic).
Proof.
  split; [|split].
  - intros reconcile op c a Hop. destruct op; simpl.
    + apply Create_returns.
    + apply Delete_returns.
    + unfold GetWaitingListEntries. eauto.
    + apply GetWaitingListEntry_returns.
    + done.
  - intros reconcile c a Hlen. by apply Update_returns.
  - exists (mkContext (inr (mkEntry "" "" 0 0)) "e1"),
      (mkAmbulance "amb" "Ambulance" (Slice [mkEntry "e1" "P1" 60 10])).
    reflexivity.
Qed.

Lemma index_safety_depends_on_reconciler_witness :
  let c := mkContext (inr (mkEntry "" "" 600 0)) "e1" in
  let a := mkAmbulance "amb" "Ambulance"
             (Slice [mkEntry "e1" "P1" 60 10; mkEntry "e2" "P2" 300 15]) in
  (exists r, mutation_with forgetful_reconcile Delete c a = Value r) /\
  (exists r, mutation_with reconcileWaitingList Update c a = Value r).
Proof.
  intros c a.
  assert (Delete <> Update) as Hop by discriminate.
  split.
  - exact (proj1 index_safety_depends_on_reconciler forgetful_reconcile
             Delete c a Hop).
  - exact (proj1 (proj2 index_safety_depends_on_reconciler)
             reconcileWaitingList c a reconcileWaitingList_preserves_length).
Defined.

(** ** Repeating an update *)

Lemma reconcileWaitingList_is_idempotent : idempotent reconcileWaitingList.
Proof.
  intros a. apply reconcileWaitingList_fixed, reconcileWaitingList_reconciled.
Qed.

(** X15: with an idempotent reconciler that only reorders the entries and
    pairwise distinct ids, sending again an update that sets no id leaves
    the state as the first one left it, and the second response carries
    the merged target entry. *)
Theorem Update_repeated
    (reconcile : Ambulance -> Ambulance) (c : Context) (a a' : Ambulance)
    (entry : WaitingListEntry) (p : payload) (status : Z) :
  preserves_entries reconcile ->
  idempotent reconcile ->
  NoDup (ids a) ->
  ShouldBindJSON c = inr entry ->
  Id entry = "" ->
  UpdateWaitingListEntry reconcile c a = Value (Some a', p, status) ->
  exists target,
    target ∈ elems (WaitingList a) /\ Id target = ParamEntryId c /\
    UpdateWaitingListEntry reconcile c a'
    = Value (Some a', EntryPayload (merge entry target), StatusOK).
Proof.
  intros Hperm Hidem Hnd Hbind Hnoid Hrun.
  apply Update_new_state in Hrun
    as (entry' & k & target & merged & Hbind' & Hid & Htarget & Htid & _
        & Ha' & _).
  assert (entry' = entry) as -> by congruence.
  set (m := merge entry target) in *.
  assert (Id m = ParamEntryId c) as Hmid.
  { unfold m. rewrite merge_Id, Hnoid. by simpl. }
  assert (elems (WaitingList a') ≡ₚ <[k := m]> (elems (WaitingList a)))
    as Hnew by (rewrite Ha'; apply Hperm).
  assert (m ∈ elems (WaitingList a')) as Hm.
  { rewrite Hnew. apply (list_elem_of_lookup_2 _ k).
    apply list_lookup_insert_eq. by apply lookup_lt_Some in Htarget. }
  assert (NoDup (ids a')) as Hnd'.
  { unfold ids. rewrite Hnew, list_fmap_insert, list_insert_id; [done|].
    rewrite list_lookup_fmap, Htarget. simpl. congruence. }
  assert (0 <= IndexFunc (WaitingList a') (fun waiting =>
                 (ParamEntryId c =? Id waiting)%string)) as Hpos.
  { apply (IndexFunc_present _ _ m Hm). apply String.eqb_eq. by symmetry. }
  destruct (by_id_found _ _ Hpos) as (k' & found & Hk' & Hfound & Hfid & _).
  apply list_elem_of_lookup in Hm as [j Hj].
  assert (m = found) as <-
    by (apply (unique_id_lookup a' j k'); [done..|congruence]).
  exists target. split; [by apply list_elem_of_lookup_2 in Htarget|].
  split; [done|].
  rewrite (Update_found _ _ _ _ _ _ Hbind Hid Hk' Hfound). cbv zeta.
  assert (merge entry m = m) as -> by apply merge_merge.
  rewrite list_insert_id by done.
  rewrite (set_WaitingList_same _ _ _ Hfound).
  assert (reconcile a' = a') as -> by (rewrite Ha'; apply Hidem).
  by rewrite (index_lookup _ _ _ Hfound).
Qed.

Lemma Update_repeated_witness :
  let entry := mkEntry "" "P7" 600 0 in
  let c := mkContext (inr entry) "e1" in
  let a := mkAmbulance "amb" "Ambulance"
             (Slice [mkEntry "e1" "P1" 60 10; mkEntry "e2" "P2" 300 15]) in
  let a' := mkAmbulance "amb" "Ambulance"
              (Slice [mkEntry "e2" "P2" 300 15; mkEntry "e1" "P7" 600 10]) in
  UpdateWaitingListEntry reconcileWaitingList c a
  = Value (Some a', EntryPayload (mkEntry "e2" "P2" 300 15), StatusOK) /\
  exists target,
    target ∈ elems (WaitingList a) /\ Id target = "e1" /\
    UpdateWaitingListEntry reconcileWaitingList c a'
    = Value (Some a', EntryPayload (merge entry target), StatusOK).
Proof.
  intros entry c a a'.
  assert (NoDup (ids a)) as Hnd by compute_done.
  assert (UpdateWaitingListEntry reconcileWaitingList c a
          = Value (Some a', EntryPayload (mkEntry "e2" "P2" 300 15), StatusOK))
    as Hrun by (vm_compute; reflexivity).
  split; [exact Hrun|].
  exact (Update_repeated reconcileWaitingList c a a' entry _ _
           reconcileWaitingList_preserves_entries
           reconcileWaitingList_is_idempotent Hnd eq_refl eq_refl Hrun).
Defined.

(** ** An update that keeps the order *)





(** ** Renaming an entry *)

(** X17: with a reconciler that only reorders the entries and pairwise
    distinct ids, an update that sets an id no entry carries moves the
    entry to that id: a get-one of the old id is answered with 404 on the
    new state, and a get-one of the new id returns the merged entry. *)
Theorem Update_renames_entry
    (reconcile : Ambulance -> Ambulance) (c c' : Context) (a a' : Ambulance)
    (entry : WaitingListEntry) (p : payload) (status : Z) :
  preserves_entries reconcile ->
  NoDup (ids a) ->
  ShouldBindJSON c = inr entry ->
  Id entry <> "" ->
  Id entry ∉ ids a ->
  ParamEntryId c' = Id entry ->
  UpdateWaitingListEntry reconcile c a = Value (Some a', p, status) ->
  GetWaitingListEntry c a'
  = Value (None, H StatusNotFound "Entry not found" None, StatusNotFound) /\
  exists target,
    target ∈ elems (WaitingList a) /\ Id target = ParamEntryId c /\
    GetWaitingListEntry c' a'
    = Value (None, EntryPayload (merge entry target), StatusOK).
Proof.
  intros Hperm Hnd Hbind Hnew Hfresh Hc' Hrun.
  apply Update_new_state in Hrun
    as (entry' & k & target & merged & Hbind' & Hid & Htarget & Htid & _
        & Ha' & _).
  assert (entry' = entry) as -> by congruence.
  assert (Id (merge entry target) = Id entry) as Hmid.
  { rewrite merge_Id. by destruct (String.eqb_spec (Id entry) ""). }
  assert (elems (WaitingList a')
          ≡ₚ <[k := merge entry target]> (elems (WaitingList a))) as Hel
    by (rewrite Ha'; apply Hperm).
  assert (forall e, e ∈ elems (WaitingList a') ->
            e = merge entry target \/
            exists j : nat, j <> k /\ elems (WaitingList a) !! j = Some e)
    as Hcases.
  { intros e He. rewrite Hel in He. apply list_elem_of_lookup in He as [j Hj].
    apply list_lookup_insert_Some in Hj as [(_ & <- & _)|[Hne Hj]]; eauto. }
  assert (merge entry target ∈ elems (WaitingList a')) as Hm.
  { rewrite Hel. apply list_elem_of_insert. by apply lookup_lt_Some in Htarget. }
  assert (forall e, e ∈ elems (WaitingList a) -> Id e <> Id entry) as Hother.
  { intros e He Heq. apply Hfresh. apply list_elem_of_fmap. by exists e. }
  split.
  - apply GetWaitingListEntry_absent; [done|]. apply Forall_forall.
    intros e [->|(j & Hne & Hj)]%Hcases.
    + rewrite Hmid, <- Htid. intros Heq. symmetry in Heq. revert Heq.
      apply Hother. by apply list_elem_of_lookup_2 in Htarget.
    + rewrite <- Htid.
      by apply (NoDup_fmap_lookup_ne Id (elems (WaitingList a)) j k e target).
  - exists target. split; [by apply list_elem_of_lookup_2 in Htarget|].
    split; [done|].
    assert (0 <= IndexFunc (WaitingList a') (fun waiting =>
                   (ParamEntryId c' =? Id waiting)%string)) as Hpos.
    { apply (IndexFunc_present _ _ _ Hm). apply String.eqb_eq. congruence. }
    destruct (by_id_found _ _ Hpos) as (k' & found & Hk' & Hfound & Hfid & _).
    assert (found = merge entry target) as ->.
    { apply list_elem_of_lookup_2 in Hfound as Hin.
      destruct (Hcases found Hin) as [->|(j & _ & Hj)]; [done|].
      apply list_elem_of_lookup_2 in Hj. destruct (Hother found Hj). congruence. }
    apply (GetWaitingListEntry_present c' a' k'); [congruence | done..].
Qed.

Lemma Update_renames_entry_witness :
  let entry := mkEntry "e3" "" 0 0 in
  let c := mkContext (inr entry) "e1" in
  let c' := mkContext (inl "EOF") "e3" in
  let a := mkAmbulance "amb" "Ambulance"
             (Slice [mkEntry "e1" "P1" 60 10; mkEntry "e2" "P2" 300 15]) in
  let a' := mkAmbulance "amb" "Ambulance"
              (Slice [mkEntry "e3" "P1" 60 10; mkEntry "e2" "P2" 300 15]) in
  UpdateWaitingListEntry reconcileWaitingList c a
  = Value (Some a', EntryPayload (mkEntry "e3" "P1" 60 10), StatusOK) /\
  GetWaitingListEntry c a'
  = Value (None, H StatusNotFound "Entry not found" None, StatusNotFound).
Proof.
  intros entry c c' a a'.
  assert (NoDup (ids a)) as Hnd by compute_done.
  assert (Id entry <> "") as Hnew by discriminate.
  assert (Id entry ∉ ids a) as Hfresh by compute_done.
  assert (UpdateWaitingListEntry reconcileWaitingList c a
          = Value (Some a', EntryPayload (mkEntry "e3" "P1" 60 10), StatusOK))
    as Hrun by (vm_compute; reflexivity).
  split; [exact Hrun|].
  exact (proj1 (Update_renames_entry reconcileWaitingList c c' a a' entry _ _
                  reconcileWaitingList_preserves_entries Hnd eq_refl Hnew
                  Hfresh eq_refl Hrun)).
Defined.
